(** * Daily Life Optimizer backend: schemas, meal suggestions, schedule

    A shallow embedding of [src/schemas.py] (the Task, Bill and Check-in
    models) and of [src/main.py] (the two derived endpoints [suggest_meals]
    and [generate_schedule], the registration of the generic endpoints with
    the id conversion of [list_items], the schema listing and the
    diagnostic report), with the properties of the written specification
    and further properties of the code stated and proved over it.

    Conventions.
    - Strings are Rocq strings (byte strings); case folding is the ASCII one.
      None of the keywords the code compares against contains a letter that
      a non-ASCII character lower-cases to.
    - A [date] is its proleptic Gregorian ordinal (day 1 is 0001-01-01, the
      last day is 9999-12-31). A [datetime] is the number of minutes from
      today's midnight, an integer; the code only builds whole minutes.
      Arithmetic that leaves the calendar raises [OverflowError], as in
      Python.
    - A stored document is the record of the fields the code reads: a field
      of a required schema type is absent or holds a value of that type, a
      field of an [Optional] schema type may also be null.
    - An endpoint result is an [option]: [None] is the blanket
      [HTTPException(status_code=500)]. *)

From Stdlib Require Import Ascii.
From Stdlib Require QArith.
From stdpp Require Import gmap strings list sorting.

Open Scope Z_scope.

(** ** Python built-ins the endpoints rely on *)

Module Py.

(** A dictionary field: missing key, [None], or a value. *)
Inductive field (A : Type) : Type :=
| Absent
| Null
| Val (a : A).
Arguments Absent {A}.
Arguments Null {A}.
Arguments Val {A} a.

(** [d.get(k, dflt)]: the default only replaces a missing key. *)
Definition get {A} (f : field A) (dflt : A) : option A :=
  match f with
  | Absent => Some dflt
  | Null => None
  | Val a => Some a
  end.

(** [d.get(k)]: [None] for a missing key. *)
Definition get_none {A} (f : field A) : option A :=
  match f with
  | Val a => Some a
  | _ => None
  end.

(** [x or dflt] on an optional integer: [None] and [0] are falsy. *)
Definition or_int (x : option Z) (dflt : Z) : Z :=
  match x with
  | None => dflt
  | Some n => if n =? 0 then dflt else n
  end.

(** [x or dflt] on an optional string: [None] and [""] are falsy. *)
Definition or_str (x : option string) (dflt : string) : string :=
  match x with
  | None => dflt
  | Some "" => dflt
  | Some s => s
  end.

(** [str.lower], ASCII letters. *)
Definition lower_ascii (c : ascii) : ascii :=
  let n := nat_of_ascii c in
  if Nat.leb 65 n && Nat.leb n 90 then ascii_of_nat (n + 32) else c.

Fixpoint lower (s : string) : string :=
  match s with
  | EmptyString => EmptyString
  | String c s' => String (lower_ascii c) (lower s')
  end.

(** [s.split(sep)] for a one-character separator: never the empty list. *)
Fixpoint split (sep : ascii) (s : string) : list string :=
  match s with
  | EmptyString => [EmptyString]
  | String c s' =>
      if Ascii.eqb c sep then EmptyString :: split sep s'
      else match split sep s' with
           | [] => [String c EmptyString]
           | w :: ws => String c w :: ws
           end
  end.

(** [int(s)] in base ten: surrounding white space, one optional sign,
    decimal digits with single underscores between them. *)
Definition is_space (c : ascii) : bool :=
  let n := nat_of_ascii c in
  (Nat.leb 9 n && Nat.leb n 13) || (Nat.leb 28 n && Nat.leb n 32).

Definition digit (c : ascii) : option Z :=
  let n := nat_of_ascii c in
  if Nat.leb 48 n && Nat.leb n 57 then Some (Z.of_nat (n - 48)) else None.

Fixpoint lstrip (s : string) : string :=
  match s with
  | String c s' => if is_space c then lstrip s' else s
  | EmptyString => EmptyString
  end.

Fixpoint all_space (s : string) : bool :=
  match s with
  | EmptyString => true
  | String c s' => is_space c && all_space s'
  end.

(** [digits acc after_digit s]: the digits of [s] read onto [acc];
    [after_digit] tells whether the previous character was a digit, the
    only place where an underscore or the end may come. *)
Fixpoint digits (acc : Z) (after_digit : bool) (s : string) : option Z :=
  match s with
  | EmptyString => if after_digit then Some acc else None
  | String c s' =>
      match digit c with
      | Some d => digits (10 * acc + d) true s'
      | None =>
          if after_digit && Ascii.eqb c "_" then digits acc false s'
          else if after_digit && all_space s then Some acc
          else None
      end
  end.

Definition int (s : string) : option Z :=
  match lstrip s with
  | String "-" s' => Z.opp <$> digits 0 false s'
  | String "+" s' => digits 0 false s'
  | s' => digits 0 false s'
  end.

(** [sorted(l, key=key)]: the stable sort by [key], keys compared with
    [<] only. Each element is put in front of the first later element
    whose key is not smaller, so equal keys keep the order of [l]. *)
Section sorted.
Context {A K : Type} (ltb : K → K → bool) (key : A → K).

Fixpoint insert_sorted (x : A) (l : list A) : list A :=
  match l with
  | [] => [x]
  | y :: l' => if ltb (key y) (key x) then y :: insert_sorted x l' else x :: l
  end.

Definition sorted (l : list A) : list A := foldr insert_sorted [] l.

(** [x] may stand before [y]: the key of [y] is not smaller. *)
Definition key_le (x y : A) : Prop := ltb (key y) (key x) = false.
End sorted.

(** [<] on pairs of integers, as Python compares tuples. *)
Definition tuple_ltb (a b : Z * Z) : bool :=
  (a.1 <? b.1) || ((a.1 =? b.1) && (a.2 <? b.2)).

(** *** [datetime] *)

Definition date : Type := Z.
Definition datetime : Type := Z.

(** [date.max.toordinal()] *)
Definition MAXORDINAL : Z := 3652059.

Definition valid_date (d : date) : Prop := 1 ≤ d ≤ MAXORDINAL.

(** [time(hour, minute)]: the minute of the day, [ValueError] out of range. *)
Definition dtime (hour minute : Z) : option Z :=
  if (0 <=? hour) && (hour <=? 23) && (0 <=? minute) && (minute <=? 59)
  then Some (hour * 60 + minute) else None.

(** [timedelta(minutes=n)]: at most 999999999 days either way. *)
Definition timedelta (n : Z) : option Z :=
  let days := n / 1440 in
  if (-999999999 <=? days) && (days <=? 999999999) then Some n else None.

Section today.
Variable today : date.

(** The calendar day an instant falls on. *)
Definition toordinal (d : datetime) : Z := today + d / 1440.

Definition representable (d : datetime) : bool :=
  (1 <=? toordinal d) && (toordinal d <=? MAXORDINAL).

(** [d + delta] for a [timedelta] already built. *)
Definition add (d : datetime) (delta : Z) : option datetime :=
  if representable (d + delta) then Some (d + delta) else None.

(** [d + timedelta(minutes=n)] *)
Definition plus_minutes (d : datetime) (n : Z) : option datetime :=
  delta ← timedelta n; add d delta.
End today.

End Py.

(** ** Record schemas ([src/schemas.py]) *)

Module Schemas.
Import Py.

(** One constraint violation of an [InvalidInput] error. *)
Inductive violation : Type :=
| missing (name : string)
| none_not_allowed (name : string)
| greater_than_equal (name : string) (bound : Z)
| less_than_equal (name : string) (bound : Z).

(** Validation gives the record or every violation found. *)
Inductive validated (A : Type) : Type :=
| Valid (a : A)
| InvalidInput (errors : list violation).
Arguments Valid {A} a.
Arguments InvalidInput {A} errors.

Definition is_valid {A} (v : validated A) : bool :=
  match v with Valid _ => true | InvalidInput _ => false end.

(** Fields are validated one by one and the violations are gathered. *)
Definition ap {A B} (f : validated (A → B)) (x : validated A) : validated B :=
  match f, x with
  | Valid g, Valid a => Valid (g a)
  | Valid _, InvalidInput e => InvalidInput e
  | InvalidInput e, Valid _ => InvalidInput e
  | InvalidInput e1, InvalidInput e2 => InvalidInput (e1 ++ e2)
  end.
Infix "<*>" := ap (at level 61, left associativity).

(** [Field(..., ge=lo, le=hi)] on an integer. *)
Definition in_range (name : string) (lo hi : Z) (n : Z) : validated Z :=
  if n <? lo then InvalidInput [greater_than_equal name lo]
  else if hi <? n then InvalidInput [less_than_equal name hi]
  else Valid n.

(** [x: T = Field(...)]: required. *)
Definition required {A} (name : string) (check : A → validated A)
    (f : field A) : validated A :=
  match f with
  | Absent => InvalidInput [missing name]
  | Null => InvalidInput [none_not_allowed name]
  | Val a => check a
  end.

(** [x: T = Field(dflt)]: the default stands for a missing field. *)
Definition with_default {A} (name : string) (dflt : A)
    (check : A → validated A) (f : field A) : validated A :=
  match f with
  | Absent => Valid dflt
  | Null => InvalidInput [none_not_allowed name]
  | Val a => check a
  end.

(** [x: Optional[T] = Field(dflt)]: null is a value of the type, and
    the constraints bear on the [T] inside. *)
Definition optional {A} (dflt : option A) (check : A → validated A)
    (f : field A) : validated (option A) :=
  match f with
  | Absent => Valid dflt
  | Null => Valid None
  | Val a => match check a with
             | Valid a' => Valid (Some a')
             | InvalidInput e => InvalidInput e
             end
  end.

(** The request body of a create endpoint, field by field. *)
Record TaskInput := {
  in_title : field string;
  in_details : field string;
  in_priority : field Z;
  in_due_date : field date;
  in_estimated_minutes : field Z;
  in_category : field string }.

Record Task := {
  title : string;
  details : option string;
  priority : Z;
  due_date : option date;
  estimated_minutes : option Z;
  category : option string }.

Definition validate_Task (i : TaskInput) : validated Task :=
  Valid Build_Task
    <*> required "title" Valid (in_title i)
    <*> optional None Valid (in_details i)
    <*> with_default "priority" 3 (in_range "priority" 1 5) (in_priority i)
    <*> optional None Valid (in_due_date i)
    <*> optional (Some 30) (in_range "estimated_minutes" 5 600)
          (in_estimated_minutes i)
    <*> optional None Valid (in_category i).

(** A [float] field is only carried along, never computed with: its
    values are taken as rationals. *)
Definition float : Type := QArith_base.Q.

Record BillInput := {
  in_name : field string;
  in_amount : field float;
  in_due_day : field Z;
  in_autopay : field bool }.

Record Bill := {
  name : string;
  amount : float;
  due_day : Z;
  autopay : bool }.

Definition validate_Bill (i : BillInput) : validated Bill :=
  Valid Build_Bill
    <*> required "name" Valid (in_name i)
    <*> required "amount" Valid (in_amount i)
    <*> required "due_day" (in_range "due_day" 1 28) (in_due_day i)
    <*> with_default "autopay" false Valid (in_autopay i).

Record CheckinInput := {
  in_date : field date;
  in_mood : field string;
  in_energy : field Z;
  in_notes : field string }.

Record Checkin := {
  checkin_date : date;
  mood : option string;
  energy : option Z;
  notes : option string }.

Definition validate_Checkin (i : CheckinInput) : validated Checkin :=
  Valid Build_Checkin
    <*> required "date" Valid (in_date i)
    <*> optional None Valid (in_mood i)
    <*> optional (Some 5) (in_range "energy" 1 10) (in_energy i)
    <*> optional None Valid (in_notes i).

End Schemas.

(** ** Meal suggestions ([suggest_meals] in [src/main.py]) *)

Module Meals.
Import Py.

(** A pantry item document; [name] is the one field the endpoint reads. *)
Record PantryDoc := { name : option string }.

Record Suggestion := {
  title : string;
  ingredients : list string;
  steps : list string;
  tags : list string }.

Definition egg_toast : Suggestion :=
  {| title := "Egg toast";
     ingredients := ["eggs"; "bread"; "butter"];
     steps := ["Toast bread"; "Scramble eggs"; "Combine and season"];
     tags := ["quick"; "breakfast"] |}.

Definition simple_pasta : Suggestion :=
  {| title := "Simple pasta";
     ingredients := ["pasta"; "tomato sauce"; "olive oil"];
     steps := ["Boil pasta"; "Heat sauce"; "Combine"];
     tags := ["dinner"; "15-min"] |}.

Definition rice_beans_bowl : Suggestion :=
  {| title := "Rice & beans bowl";
     ingredients := ["rice"; "beans"; "spices"];
     steps := ["Cook rice"; "Warm beans"; "Season and serve"];
     tags := ["budget"; "vegan"] |}.

Definition cheesy_quesadilla : Suggestion :=
  {| title := "Cheesy quesadilla";
     ingredients := ["tortilla"; "cheese"];
     steps := ["Heat tortilla"; "Melt cheese inside"];
     tags := ["snack"; "kid-friendly"] |}.

Definition pantry_mix_bowl (names : list string) : Suggestion :=
  {| title := "Pantry mix bowl";
     ingredients := names;
     steps := ["Combine ingredients you have and season to taste"];
     tags := ["creative"] |}.

(** The names as the set comprehension meets them, one for each document
    and in the order of the documents. *)
Definition names_of (pantry : list PantryDoc) : list string :=
  (λ p, lower (default "" (name p))) <$> pantry.

(** [{p.get("name", "").lower() for p in pantry}] *)
Definition have_of (pantry : list PantryDoc) : gset string :=
  list_to_set ((λ p, lower (default "" (name p))) <$> pantry).

(** [all(i in have for i in items)] *)
Definition has (have : gset string) (items : list string) : bool :=
  forallb (λ i, bool_decide (i ∈ have)) items.

(** [suggestions.append(s)] under a condition. *)
Definition append_if (c : bool) (s : Suggestion) (suggestions : list Suggestion)
    : list Suggestion :=
  if c then suggestions ++ [s] else suggestions.

Definition is_empty {A} (l : list A) : bool :=
  match l with [] => true | _ => false end.

Section suggest_meals.
(** [list(have)]: the order in which Python iterates over the set. The
    language leaves it open and it may depend on the order in which the
    names were added, so it is a parameter here that is given the names
    in the order of the comprehension; all that is known of it is that
    every member of the set comes exactly once. *)
Variable list_of_set : list string → list string.

(** The endpoint, given the fetched pantry documents; the response
    carries the list under the key ["suggestions"]. *)
Definition suggest_meals (pantry : list PantryDoc) : list Suggestion :=
  let have := have_of pantry in
  let suggestions := [] in
  let suggestions := append_if (has have ["eggs"; "bread"]) egg_toast suggestions in
  let suggestions :=
    append_if (has have ["pasta"; "tomato sauce"] || has have ["pasta"; "tomatoes"])
      simple_pasta suggestions in
  let suggestions := append_if (has have ["rice"; "beans"]) rice_beans_bowl suggestions in
  let suggestions :=
    append_if (has have ["tortilla"; "cheese"]) cheesy_quesadilla suggestions in
  let suggestions :=
    append_if (is_empty suggestions && bool_decide (have ≠ ∅))
      (pantry_mix_bowl (take 5 (list_of_set (names_of pantry)))) suggestions in
  suggestions.
End suggest_meals.

(** The rules as the specification words them, on set membership. *)
Definition rule1 (have : gset string) : Prop :=
  "eggs" ∈ have ∧ "bread" ∈ have.
Definition rule2 (have : gset string) : Prop :=
  "pasta" ∈ have ∧ ("tomato sauce" ∈ have ∨ "tomatoes" ∈ have).
Definition rule3 (have : gset string) : Prop :=
  "rice" ∈ have ∧ "beans" ∈ have.
Definition rule4 (have : gset string) : Prop :=
  "tortilla" ∈ have ∧ "cheese" ∈ have.

#[global] Instance rule1_dec have : Decision (rule1 have).
Proof. unfold rule1. apply _. Defined.
#[global] Instance rule2_dec have : Decision (rule2 have).
Proof. unfold rule2. apply _. Defined.
#[global] Instance rule3_dec have : Decision (rule3 have).
Proof. unfold rule3. apply _. Defined.
#[global] Instance rule4_dec have : Decision (rule4 have).
Proof. unfold rule4. apply _. Defined.

(** The rule-based suggestions the specification asks for: each rule on
    its own, in the order 1 to 4. *)
Definition rule_based (have : gset string) : list Suggestion :=
  (if decide (rule1 have) then [egg_toast] else [])
  ++ (if decide (rule2 have) then [simple_pasta] else [])
  ++ (if decide (rule3 have) then [rice_beans_bowl] else [])
  ++ (if decide (rule4 have) then [cheesy_quesadilla] else []).

Definition no_rule_matched (have : gset string) : Prop :=
  ¬ rule1 have ∧ ¬ rule2 have ∧ ¬ rule3 have ∧ ¬ rule4 have.

#[global] Instance no_rule_matched_dec have : Decision (no_rule_matched have).
Proof. unfold no_rule_matched. apply _. Defined.

(** Two suggestions that differ at most in the ingredients of a Pantry
    mix bowl. *)
Definition same_but_bowl_ingredients (a b : Suggestion) : Prop :=
  title a = title b ∧ steps a = steps b ∧ tags a = tags b
  ∧ (title a ≠ "Pantry mix bowl" → a = b).

End Meals.

(** ** Daily schedule ([generate_schedule] in [src/main.py]) *)

Module Schedule.
Import Py.

Record ScheduleRequest := {
  start_time : option string;
  end_time : option string;
  break_every_minutes : Z;
  break_minutes : Z }.

(** [ScheduleRequest()] *)
Definition default_request : ScheduleRequest :=
  {| start_time := Some "09:00"; end_time := Some "18:00";
     break_every_minutes := 90; break_minutes := 10 |}.

(** The fields of a task document the endpoint reads. *)
Record TaskDoc := {
  task_title : option string;
  task_priority : option Z;
  task_estimated_minutes : field Z }.

(** The fields of a routine document the endpoint reads. *)
Record RoutineDoc := {
  routine_name : option string;
  routine_preferred_time : field string }.

Inductive block_type : Type := task | break | routine.

#[global] Instance block_type_eq_dec : EqDecision block_type.
Proof. solve_decision. Defined.

(** A block of the response. [start] and [end_] hold the instants whose
    [isoformat()] the code stores; [priority] is there on task blocks.
    [isoformat()] writes year, month, day, hour, minute and second in this
    order, each at a fixed width, so the stored strings are ordered as the
    instants are: the final sort, which the code keys on the ["start"]
    string, is keyed on the instant here. *)
Record Block := {
  title : string;
  start : datetime;
  end_ : datetime;
  type : block_type;
  priority : option Z }.

Record Response := {
  date_ : date;
  blocks : list Block }.

(** [parse_hhmm]: today at [hh:mm]. *)
Definition parse_hhmm (s : string) : option datetime :=
  parts ← mapM int (split ":" s);
  match parts with
  | [hh; mm] => dtime hh mm
  | _ => None
  end.

(** [int(t.get("estimated_minutes", 30) or 30)] *)
Definition est_of (t : TaskDoc) : Z :=
  or_int (get (task_estimated_minutes t) 30) 30.

Definition task_sort_key (t : TaskDoc) : Z * Z :=
  (default 3 (task_priority t), est_of t).

(** [sorted(tasks, key=task_sort_key)] *)
Definition tasks_sorted (tasks : list TaskDoc) : list TaskDoc :=
  sorted tuple_ltb task_sort_key tasks.

(** The anchor of a routine reminder, from the lower-cased preference. *)
Definition routine_time (preferred : string) : datetime :=
  if String.eqb preferred "morning" then 9 * 60 + 0
  else if String.eqb preferred "afternoon" then 13 * 60 + 0
  else if String.eqb preferred "evening" then 18 * 60 + 0
  else 10 * 60 + 0.

(** The state of the task loop. *)
Record loop_state := {
  cursor : datetime;
  blocks_so_far : list Block;
  minutes_since_break : Z }.

(** How one turn of the loop ends. *)
Inductive control : Type :=
| Continue (st : loop_state)
| Break.

Section today.
Variable today : date.

(** One routine reminder: the body of [for r in routines]. *)
Definition routine_block (r : RoutineDoc) : option Block :=
  let label := default "Routine" (routine_name r) in
  let preferred := lower (or_str (get_none (routine_preferred_time r)) "") in
  let rt := routine_time preferred in
  rt_end ← plus_minutes today rt 15;
  Some {| title := "Routine: " +:+ label; start := rt; end_ := rt_end;
          type := routine; priority := None |}.

Definition routine_blocks (routines : list RoutineDoc) : option (list Block) :=
  mapM routine_block routines.

(** Lines 255 to 265: the break after a task, from the state in which
    the task has been emitted and counted. [None] is an exception. *)
Definition take_break (req : ScheduleRequest) (end_time : datetime)
    (st : loop_state) : option loop_state :=
  if break_every_minutes req <=? minutes_since_break st then
    b_end ← plus_minutes today (cursor st) (break_minutes req);
    if b_end <=? end_time then
      Some {| cursor := b_end;
              blocks_so_far := blocks_so_far st ++
                [{| title := "Break"; start := cursor st; end_ := b_end;
                    type := break; priority := None |}];
              minutes_since_break := 0 |}
    else
      Some {| cursor := cursor st; blocks_so_far := blocks_so_far st;
              minutes_since_break := 0 |}
  else Some st.

(** The body of the [while] loop for the task [t]. *)
Definition loop_body (req : ScheduleRequest) (end_time : datetime)
    (t : TaskDoc) (st : loop_state) : option control :=
  let est := est_of t in
  block_end ← plus_minutes today (cursor st) est;
  if end_time <? block_end then Some Break
  else
    st' ← take_break req end_time
      {| cursor := block_end;
         blocks_so_far := blocks_so_far st ++
           [{| title := default "Task" (task_title t); start := cursor st;
               end_ := block_end; type := task;
               priority := Some (default 3 (task_priority t)) |}];
         minutes_since_break := minutes_since_break st + est |};
    Some (Continue st').

(** [while cursor < end and i < len(tasks_sorted)]; the list is
    [tasks_sorted[i:]]. *)
Fixpoint while_loop (req : ScheduleRequest) (end_time : datetime)
    (tasks : list TaskDoc) (st : loop_state) : option loop_state :=
  match tasks with
  | [] => Some st
  | t :: tasks' =>
      if cursor st <? end_time then
        c ← loop_body req end_time t st;
        match c with
        | Continue st' => while_loop req end_time tasks' st'
        | Break => Some st
        end
      else Some st
  end.

Definition initial_state (start_time : datetime) : loop_state :=
  {| cursor := start_time; blocks_so_far := []; minutes_since_break := 0 |}.

(** The endpoint, given the fetched task and routine documents. *)
Definition generate_schedule (tasks : list TaskDoc) (routines : list RoutineDoc)
    (req : ScheduleRequest) : option Response :=
  start_time ← parse_hhmm (or_str (start_time req) "09:00");
  end_time ← parse_hhmm (or_str (end_time req) "18:00");
  let tasks_sorted := tasks_sorted tasks in
  routine_blocks ← routine_blocks routines;
  st ← while_loop req end_time tasks_sorted (initial_state start_time);
  let blocks := blocks_so_far st ++ routine_blocks in
  let blocks_sorted := sorted Z.ltb start blocks in
  Some {| date_ := today; blocks := blocks_sorted |}.

(** [GET /api/schedule] *)
Definition get_schedule_default (tasks : list TaskDoc)
    (routines : list RoutineDoc) : option Response :=
  generate_schedule tasks routines default_request.
End today.

End Schedule.

(** ** Storing a validated task *)

Module Database.
Import Py.

(** Modelled from the spec: [create_document] of the persistence gateway
    ([database.py], not among the sources) "inserts the record's field
    values (as a flat key/value structure)". Of the stored task these are
    the fields the schedule reads; an [Optional] field that is [None] is
    stored as null. *)
Definition task_document (t : Schemas.Task) : Schedule.TaskDoc :=
  {| Schedule.task_title := Some (Schemas.title t);
     Schedule.task_priority := Some (Schemas.priority t);
     Schedule.task_estimated_minutes :=
       match Schemas.estimated_minutes t with
       | None => Null
       | Some e => Val e
       end |}.

End Database.

(** ** Generic endpoints, schema listing and diagnostics ([src/main.py]) *)

Module Api.
Import Py.

(** The model classes of [schemas.py]. *)
Inductive model : Type :=
| Task | Routine | Pantryitem | Meal | Bill | Subscription
| Shoppinglistitem | Checkin | User.

#[global] Instance model_eq_dec : EqDecision model.
Proof. solve_decision. Defined.

(** [cls.__name__] *)
Definition class_name (m : model) : string :=
  match m with
  | Task => "Task"
  | Routine => "Routine"
  | Pantryitem => "Pantryitem"
  | Meal => "Meal"
  | Bill => "Bill"
  | Subscription => "Subscription"
  | Shoppinglistitem => "Shoppinglistitem"
  | Checkin => "Checkin"
  | User => "User"
  end.

(** [MODEL_TO_COLLECTION], as the items of the dictionary. *)
Definition MODEL_TO_COLLECTION : list (model * string) :=
  [ (Task, "task"); (Routine, "routine"); (Pantryitem, "pantryitem");
    (Meal, "meal"); (Bill, "bill"); (Subscription, "subscription");
    (Shoppinglistitem, "shoppinglistitem"); (Checkin, "checkin");
    (User, "user") ].

(** [d[k]]: [None] is [KeyError]. *)
Fixpoint getitem {K V} `{EqDecision K} (d : list (K * V)) (k : K) : option V :=
  match d with
  | [] => None
  | (k', v) :: d' => if decide (k' = k) then Some v else getitem d' k
  end.

(** What one call of [create_and_list_endpoints] registers: the
    collection its two handlers work on and the path of its two routes. *)
Record endpoints := {
  collection : string;
  path : string }.

Definition create_and_list_endpoints (model_cls : model) (base_path : string)
    : option endpoints :=
  collection ← getitem MODEL_TO_COLLECTION model_cls;
  Some {| collection := collection; path := "/api/" +:+ base_path |}.

(** The nine calls under "Register endpoints", in their order. *)
Definition registrations : list (model * string) :=
  [ (Task, "tasks"); (Routine, "routines"); (Pantryitem, "pantry");
    (Meal, "meals"); (Bill, "bills"); (Subscription, "subscriptions");
    (Shoppinglistitem, "shopping-list"); (Checkin, "checkins");
    (User, "users") ].

Definition register_endpoints : option (list endpoints) :=
  mapM (λ r, create_and_list_endpoints r.1 r.2) registrations.

(** [get_schema]: the names under ["collections"]. *)
Definition get_schema : list string :=
  [ "task"; "routine"; "pantryitem"; "meal"; "bill"; "subscription";
    "shoppinglistitem"; "checkin"; "user" ].

(** [list_items]. A document maps field names to values; of the values the
    handler only needs [str] and that a string is one of them. *)
Section list_items.
Context {value : Type} (str : value → string) (string_value : string → value).

(** The body of [for d in docs]. *)
Definition with_id (d : gmap string value) : gmap string value :=
  match d !! "_id" with
  | Some oid => <["id" := string_value (str oid)]> (delete "_id" d)
  | None => d
  end.

(** The handler, given what [get_documents(collection, {}, limit)]
    returned, [None] when it raised. *)
Definition list_items (fetched : option (list (gmap string value)))
    : option (list (gmap string value)) :=
  match fetched with
  | Some docs => Some (with_id <$> docs)
  | None => None
  end.
End list_items.

(** [s[:n]] *)
Fixpoint slice_to (n : nat) (s : string) : string :=
  match n, s with
  | S n', String c s' => String c (slice_to n' s')
  | _, _ => EmptyString
  end.

(** The database handle as [test_database] uses it: its name, and what
    [list_collection_names()] gives, the names or the text of the
    exception it raises. *)
Record Database := {
  db_name : string;
  list_collection_names : string + list string }.

Record TestResponse := {
  backend : string;
  database : string;
  database_url : string;
  database_name : string;
  connection_status : string;
  collections : list string }.

(** [test_database], given the handle [db] ([None] when there is none) and
    the environment variable. Nothing in the outer [try] can raise but
    the listing, which has its own handler. *)
Definition test_database (db : option Database) (DATABASE_URL : option string)
    : TestResponse :=
  let response :=
    {| backend := "✅ Running";
       database := "❌ Not Available";
       database_url := "❌ Not Set";
       database_name := "❌ Not Set";
       connection_status := "Not Connected";
       collections := [] |} in
  match db with
  | Some db =>
      let url :=
        match DATABASE_URL with
        | None | Some EmptyString => "❌ Not Set"
        | Some _ => "✅ Set"
        end in
      match list_collection_names db with
      | inr names =>
          {| backend := backend response;
             database := "✅ Connected & Working";
             database_url := url;
             database_name := db_name db;
             connection_status := "Connected";
             collections := names |}
      | inl e =>
          {| backend := backend response;
             database := "⚠️ Connected but error: " +:+ slice_to 60 e;
             database_url := url;
             database_name := db_name db;
             connection_status := "Connected";
             collections := collections response |}
      end
  | None => response
  end.

End Api.

(** * The vocabulary of the specification

    What the statements below are worded with: the values the
    specification names and the properties it asks for, defined apart from
    the code above. *)

Module SchemasTerms.
Import Py Schemas.

(** A task body with a title and the given priority, nothing else. *)
Definition task_with_priority (p : Z) : TaskInput :=
  {| in_title := Val "Task"; in_details := Absent; in_priority := Val p;
     in_due_date := Absent; in_estimated_minutes := Absent;
     in_category := Absent |}.

(** A bill body with a name, an amount and the given day. *)
Definition bill_with_due_day (d : Z) : BillInput :=
  {| in_name := Val "Bill"; in_amount := Val (QArith_base.Qmake 10 1);
     in_due_day := Val d; in_autopay := Absent |}.

(** The violations a validation reports, none when it succeeds. *)
Definition violations {A} (v : validated A) : list violation :=
  match v with Valid _ => [] | InvalidInput errors => errors end.

(** A field of a body holding an optional value: null for [None]. *)
Definition dump_optional {A} (o : option A) : field A :=
  match o with Some a => Val a | None => Null end.

(** A validated task written back as a request body, every field given. *)
Definition dump_Task (t : Task) : TaskInput :=
  {| in_title := Val (title t);
     in_details := dump_optional (details t);
     in_priority := Val (priority t);
     in_due_date := dump_optional (due_date t);
     in_estimated_minutes := dump_optional (estimated_minutes t);
     in_category := dump_optional (category t) |}.

End SchemasTerms.

Module ScheduleTerms.
Import Py Schedule.

(** The anchor as the specification tabulates it. *)
Definition anchor (preferred_time : field string) : datetime :=
  let p := lower (match preferred_time with Val s => s | _ => "" end) in
  if decide (p = "morning") then 9 * 60
  else if decide (p = "afternoon") then 13 * 60
  else if decide (p = "evening") then 18 * 60
  else 10 * 60.

(** The reminder the specification asks for a routine. *)
Definition reminder (r : RoutineDoc) : Block :=
  {| title := "Routine: " +:+ default "Routine" (routine_name r);
     start := anchor (routine_preferred_time r);
     end_ := anchor (routine_preferred_time r) + 15;
     type := routine;
     priority := None |}.

(** The block of task [t] laid at [from], and the break laid at [from]. *)
Definition task_block (t : TaskDoc) (from : datetime) : Block :=
  {| title := default "Task" (task_title t); start := from;
     end_ := from + est_of t; type := task;
     priority := Some (default 3 (task_priority t)) |}.

Definition break_block (req : ScheduleRequest) (from : datetime) : Block :=
  {| title := "Break"; start := from; end_ := from + break_minutes req;
     type := break; priority := None |}.

(** The three ways a turn goes on to the next task. *)
Inductive turn (req : ScheduleRequest) (e : datetime) (t : TaskDoc)
    (st : loop_state) : loop_state → Prop :=
| turn_no_break :
    minutes_since_break st + est_of t < break_every_minutes req →
    turn req e t st
      {| cursor := cursor st + est_of t;
         blocks_so_far := blocks_so_far st ++ [task_block t (cursor st)];
         minutes_since_break := minutes_since_break st + est_of t |}
| turn_break :
    break_every_minutes req ≤ minutes_since_break st + est_of t →
    cursor st + est_of t + break_minutes req ≤ e →
    turn req e t st
      {| cursor := cursor st + est_of t + break_minutes req;
         blocks_so_far :=
           (blocks_so_far st ++ [task_block t (cursor st)])
           ++ [break_block req (cursor st + est_of t)];
         minutes_since_break := 0 |}
| turn_break_dropped :
    break_every_minutes req ≤ minutes_since_break st + est_of t →
    e < cursor st + est_of t + break_minutes req →
    turn req e t st
      {| cursor := cursor st + est_of t;
         blocks_so_far := blocks_so_far st ++ [task_block t (cursor st)];
         minutes_since_break := 0 |}.

(** The sort key as the specification words it. *)
Definition spec_key (t : TaskDoc) : Z * Z :=
  (match task_priority t with Some p => p | None => 3 end,
   match task_estimated_minutes t with
   | Val n => if decide (n = 0) then 30 else n
   | _ => 30
   end).

(** Ascending pairs: by the first component, then by the second. *)
Definition lex_le (a b : Z * Z) : Prop :=
  a.1 < b.1 ∨ (a.1 = b.1 ∧ a.2 ≤ b.2).

(** A task block and the task it stands for, seen as title, priority and
    length. *)
Definition block_view (b : Block) : string * option Z * Z :=
  (title b, priority b, end_ b - start b).

Definition task_view (t : TaskDoc) : string * option Z * Z :=
  (default "Task" (task_title t), Some (default 3 (task_priority t)), est_of t).

Definition task_blocks (bs : list Block) : list Block :=
  filter (λ b, type b = task) bs.

(** [chain from bs to]: the blocks of [bs] follow one another from the
    instant [from] to the instant [to], each starting where the one
    before ended. *)
Fixpoint chain (from : datetime) (bs : list Block) (to : datetime) : Prop :=
  match bs with
  | [] => from = to
  | b :: bs' => start b = from ∧ chain (end_ b) bs' to
  end.

Definition lasting (b : Block) : Prop := start b < end_ b.

(** The task and break blocks of a list of blocks. *)
Definition task_break_blocks (bs : list Block) : list Block :=
  filter (λ b, type b ≠ routine) bs.

(** Every block lies in the window and lasts. *)
Definition within_window (s e : datetime) (bs : list Block) : Prop :=
  Forall (λ b, s ≤ start b ∧ start b < end_ b ∧ end_ b ≤ e) bs.

(** No two blocks share an instant. *)
Definition non_overlapping (bs : list Block) : Prop :=
  ∀ i j a b, (i < j)%nat → bs !! i = Some a → bs !! j = Some b →
    end_ a ≤ start b ∨ end_ b ≤ start a.

(** The first block starts at [s] and each next one where the one
    before ended. *)
Definition chained (s : datetime) (bs : list Block) : Prop :=
  (∀ b, head bs = Some b → start b = s)
  ∧ ∀ i a b, bs !! i = Some a → bs !! S i = Some b → start b = end_ a.

(** The property the specification states for every request with the
    start before the end. *)
Definition window_chain_claim (today : date) (tasks : list TaskDoc)
    (routines : list RoutineDoc) (req : ScheduleRequest) : Prop :=
  ∀ s e resp,
    parse_hhmm (or_str (start_time req) "09:00") = Some s →
    parse_hhmm (or_str (end_time req) "18:00") = Some e →
    s < e →
    generate_schedule today tasks routines req = Some resp →
    within_window s e (task_break_blocks (blocks resp))
    ∧ non_overlapping (task_break_blocks (blocks resp))
    ∧ chained s (task_break_blocks (blocks resp)).

(** [n] written on two decimal digits, and a time of day as [HH:MM]. *)
Definition two_digits (n : Z) : string :=
  String (ascii_of_nat (48 + Z.to_nat (n / 10)))
    (String (ascii_of_nat (48 + Z.to_nat (n mod 10))) EmptyString).

Definition hhmm (h m : Z) : string :=
  two_digits h +:+ ":" +:+ two_digits m.

(** The number of times [c] comes in [s]. *)
Fixpoint count_char (c : ascii) (s : string) : nat :=
  match s with
  | EmptyString => 0
  | String c' s' => (if Ascii.eqb c' c then 1 else 0) + count_char c s'
  end.

(** The minutes the blocks of a list take together. *)
Definition total_minutes (bs : list Block) : Z :=
  foldr (λ b acc, (end_ b - start b) + acc) 0 bs.

(** A list of task and break blocks in which every break comes right
    after a task and starts where that task ends. *)
Inductive task_groups : list Block → Prop :=
| task_groups_nil : task_groups []
| task_groups_task a bs :
    type a = task → task_groups bs → task_groups (a :: bs)
| task_groups_task_break a b bs :
    type a = task → type b = break → start b = end_ a →
    task_groups bs → task_groups (a :: b :: bs).

(** What a block of a response looks like, by its type. *)
Definition block_of (req : ScheduleRequest) (tasks : list TaskDoc)
    (b : Block) : Prop :=
  match type b with
  | task => ∃ t, t ∈ tasks ∧ b = task_block t (start b)
  | break => b = break_block req (start b)
  | routine => end_ b = start b + 15 ∧ priority b = None
  end.

End ScheduleTerms.

(** * Properties *)

(** ** The stable sort *)

Module PyFacts.
Import Py.

Lemma filter_all {A} (P : A → Prop) `{!∀ x, Decision (P x)} l :
  Forall P l → filter P l = l.
Proof.
  induction 1 as [|x l Hx Hl IH]; [done|].
  by rewrite filter_cons_True, IH.
Qed.

Lemma filter_none {A} (P : A → Prop) `{!∀ x, Decision (P x)} l :
  Forall (λ x, ¬ P x) l → filter P l = [].
Proof.
  induction 1 as [|x l Hx Hl IH]; [done|].
  by rewrite filter_cons_False, IH.
Qed.

Section sorted.
Context {A K : Type} (ltb : K → K → bool) (key : A → K).

#[local] Abbreviation key_le := (Py.key_le ltb key).

Lemma insert_sorted_Permutation x l :
  insert_sorted ltb key x l ≡ₚ x :: l.
Proof.
  induction l as [|y l IH]; simpl; [done|].
  destruct (ltb (key y) (key x)); [|done].
  rewrite IH. apply Permutation_swap.
Qed.

Lemma sorted_Permutation l : sorted ltb key l ≡ₚ l.
Proof.
  induction l as [|x l IH]; simpl; [done|].
  rewrite insert_sorted_Permutation. by rewrite IH.
Qed.

Lemma sorted_length l : length (sorted ltb key l) = length l.
Proof. by rewrite sorted_Permutation. Qed.

(** A part of the list that the order does not tell apart stays as
    it was. *)
Lemma insert_sorted_filter_tied (P : A → Prop) `{!∀ x, Decision (P x)} x l :
  (∀ a b, P a → P b → ltb (key a) (key b) = false) →
  filter P (insert_sorted ltb key x l) = filter P (x :: l).
Proof.
  intros tied. induction l as [|y l IH]; simpl; [done|].
  destruct (ltb (key y) (key x)) eqn:Hyx; [|done].
  rewrite filter_cons, IH, !filter_cons.
  destruct (decide (P y)) as [Py|]; [|done].
  destruct (decide (P x)) as [Px|]; [|done].
  specialize (tied y x Py Px). congruence.
Qed.

Lemma sorted_filter_tied (P : A → Prop) `{!∀ x, Decision (P x)} l :
  (∀ a b, P a → P b → ltb (key a) (key b) = false) →
  filter P (sorted ltb key l) = filter P l.
Proof.
  intros tied. induction l as [|x l IH]; simpl; [done|].
  rewrite insert_sorted_filter_tied by done.
  by rewrite !filter_cons, IH.
Qed.

(** From here on [ltb] is a strict weak order, as [<] is on integers
    and on tuples of integers. *)
Hypothesis ltb_asym : ∀ a b, ltb a b = true → ltb b a = false.
Hypothesis ltb_le_trans :
  ∀ a b c, ltb b a = false → ltb c b = false → ltb c a = false.

#[local] Instance key_le_trans : Transitive key_le.
Proof. intros x y z Hxy Hyz. unfold Py.key_le in *. eauto. Qed.

Lemma insert_sorted_HdRel a x l :
  key_le a x → HdRel key_le a l → HdRel key_le a (insert_sorted ltb key x l).
Proof.
  intros Hax Hal. destruct l as [|y l]; simpl; [by constructor|].
  destruct (ltb (key y) (key x)); constructor; [|done].
  by inversion Hal.
Qed.

Lemma insert_sorted_Sorted x l :
  Sorted key_le l → Sorted key_le (insert_sorted ltb key x l).
Proof.
  induction 1 as [|y l Hl IH Hy]; simpl; [by repeat constructor|].
  destruct (ltb (key y) (key x)) eqn:Hyx.
  - constructor; [done|]. apply insert_sorted_HdRel; [|done].
    unfold Py.key_le. by apply ltb_asym.
  - constructor; [by constructor|]. by constructor.
Qed.

Lemma sorted_Sorted l : Sorted key_le (sorted ltb key l).
Proof.
  induction l as [|x l IH]; simpl; [constructor|].
  by apply insert_sorted_Sorted.
Qed.

Lemma sorted_StronglySorted l : StronglySorted key_le (sorted ltb key l).
Proof. apply Sorted_StronglySorted; [apply _|apply sorted_Sorted]. Qed.

(** Something that may stand before the whole list is put at its head. *)
Lemma insert_sorted_head x l :
  Forall (key_le x) l → insert_sorted ltb key x l = x :: l.
Proof.
  destruct 1 as [|y l Hxy _]; simpl; [done|]. by rewrite Hxy.
Qed.

(** A sorted list is left as it is. *)
Lemma sorted_of_StronglySorted l :
  StronglySorted key_le l → sorted ltb key l = l.
Proof.
  induction 1 as [|x l Hl IH Hx]; simpl; [done|].
  rewrite IH. by apply insert_sorted_head.
Qed.

(** Sorting commutes with taking the elements that satisfy [P]. *)
Lemma insert_sorted_filter (P : A → Prop) `{!∀ x, Decision (P x)} x l :
  StronglySorted key_le l →
  filter P (insert_sorted ltb key x l) =
    if decide (P x) then insert_sorted ltb key x (filter P l) else filter P l.
Proof.
  induction 1 as [|y l Hl IH Hy]; simpl.
  - rewrite filter_cons. by destruct (decide (P x)).
  - destruct (ltb (key y) (key x)) eqn:Hyx.
    + rewrite !filter_cons, IH.
      destruct (decide (P y)), (decide (P x)); simpl; by rewrite ?Hyx.
    + rewrite !filter_cons.
      destruct (decide (P x)); [|done].
      destruct (decide (P y)); simpl; [by rewrite Hyx|].
      symmetry. apply insert_sorted_head.
      apply list.Forall_forall. intros z Hz.
      apply list_elem_of_filter in Hz as [_ Hz].
      rewrite list.Forall_forall in Hy.
      transitivity y; [done|by apply Hy].
Qed.

Lemma sorted_filter (P : A → Prop) `{!∀ x, Decision (P x)} l :
  filter P (sorted ltb key l) = sorted ltb key (filter P l).
Proof.
  induction l as [|x l IH]; simpl; [done|].
  rewrite insert_sorted_filter by apply sorted_StronglySorted.
  rewrite filter_cons, IH. by destruct (decide (P x)).
Qed.
End sorted.

Lemma Z_ltb_asym (a b : Z) : (a <? b) = true → (b <? a) = false.
Proof. lia. Qed.

Lemma Z_ltb_le_trans (a b c : Z) :
  (b <? a) = false → (c <? b) = false → (c <? a) = false.
Proof. lia. Qed.

Lemma tuple_ltb_asym a b : tuple_ltb a b = true → tuple_ltb b a = false.
Proof. unfold tuple_ltb. destruct a, b; simpl. lia. Qed.

Lemma tuple_ltb_le_trans a b c :
  tuple_ltb b a = false → tuple_ltb c b = false → tuple_ltb c a = false.
Proof. unfold tuple_ltb. destruct a, b, c; simpl. lia. Qed.

(** With keys that are all different, the order of the input does not
    tell in the result. *)
Section sorted_distinct_keys.
Context {A K : Type} (ltb : K → K → bool) (key : A → K).
Hypothesis ltb_asym : ∀ a b, ltb a b = true → ltb b a = false.
Hypothesis ltb_le_trans :
  ∀ a b c, ltb b a = false → ltb c b = false → ltb c a = false.
Hypothesis ltb_total : ∀ a b, a ≠ b → ltb a b = true ∨ ltb b a = true.

Lemma ltb_trans a b c : ltb a b = true → ltb b c = true → ltb a c = true.
Proof.
  intros Hab Hbc. destruct (ltb a c) eqn:Hac; [done|].
  pose proof (ltb_asym _ _ Hbc) as Hcb.
  pose proof (ltb_le_trans _ _ _ Hcb Hac). congruence.
Qed.

Lemma insert_sorted_comm_lt x y l :
  ltb (key x) (key y) = true →
  insert_sorted ltb key x (insert_sorted ltb key y l)
  = insert_sorted ltb key y (insert_sorted ltb key x l).
Proof.
  intros Hxy. pose proof (ltb_asym _ _ Hxy) as Hyx.
  induction l as [|z l IH]; simpl.
  - by rewrite Hyx, Hxy.
  - destruct (ltb (key z) (key x)) eqn:Hzx.
    + pose proof (ltb_trans _ _ _ Hzx Hxy) as Hzy.
      rewrite Hzy. simpl. by rewrite Hzx, Hzy, IH.
    + destruct (ltb (key z) (key y)) eqn:Hzy; simpl.
      * by rewrite Hzx, Hxy, Hzy.
      * by rewrite Hyx, Hxy, Hzy.
Qed.

Lemma insert_sorted_comm x y l :
  key x ≠ key y →
  insert_sorted ltb key x (insert_sorted ltb key y l)
  = insert_sorted ltb key y (insert_sorted ltb key x l).
Proof.
  intros [Hxy|Hyx]%ltb_total.
  - by apply insert_sorted_comm_lt.
  - symmetry. by apply insert_sorted_comm_lt.
Qed.

Lemma sorted_Permutation_eq l1 l2 :
  l1 ≡ₚ l2 → NoDup (key <$> l1) → sorted ltb key l1 = sorted ltb key l2.
Proof.
  induction 1 as [|x l1 l2 Hl IH|x y l|l1 l2 l3 H12 IH12 H23 IH23]; simpl.
  - done.
  - intros [_ Hnodup]%NoDup_cons. by rewrite IH.
  - intros [Hy _]%NoDup_cons. apply insert_sorted_comm.
    intros Heq. apply Hy. rewrite Heq. left.
  - intros Hnodup. rewrite IH12 by done. apply IH23. by rewrite <- H12.
Qed.
End sorted_distinct_keys.

Lemma tuple_ltb_total (a b : Z * Z) :
  a ≠ b → tuple_ltb a b = true ∨ tuple_ltb b a = true.
Proof.
  destruct a as [a1 a2], b as [b1 b2]. unfold tuple_ltb. simpl. intros Hne.
  assert (a1 ≠ b1 ∨ a2 ≠ b2) as Hdiff.
  { destruct (decide (a1 = b1)) as [->|]; [|by left].
    right. intros ->. done. }
  lia.
Qed.

End PyFacts.

(** ** Validation *)

Module SchemasSpec.
Import Py Schemas SchemasTerms.

Lemma in_range_Valid name lo hi n :
  lo ≤ n ≤ hi → in_range name lo hi n = Valid n.
Proof.
  intros H. unfold in_range.
  destruct (n <? lo) eqn:H1; [lia|]. destruct (hi <? n) eqn:H2; [lia|done].
Qed.

Lemma in_range_is_valid name lo hi n :
  is_valid (in_range name lo hi n) = true ↔ lo ≤ n ≤ hi.
Proof.
  unfold in_range.
  destruct (n <? lo) eqn:H1; simpl; [split; [done|lia]|].
  destruct (hi <? n) eqn:H2; simpl; [split; [done|lia]|].
  split; [lia|done].
Qed.

Lemma is_valid_ap {A B} (f : validated (A → B)) (x : validated A) :
  is_valid (f <*> x) = is_valid f && is_valid x.
Proof. by destruct f, x. Qed.

Lemma is_valid_optional {A} dflt (check : A → validated A) f :
  is_valid (optional dflt check f) =
    match f with Val a => is_valid (check a) | _ => true end.
Proof. destruct f as [| |a]; simpl; try done. by destruct (check a). Qed.

(** C8. Task validation fails for priority 0 and 6 and succeeds for 1 and
    5; Bill validation fails for due_day 0 and 29 and succeeds for 1 and
    28. In general, a Task body whose title is given, whatever its other
    fields, is rejected exactly when its priority is outside 1..5 or its
    estimated_minutes is a number outside 5..600; a Bill body whose name,
    amount and autopay are well-formed is rejected exactly when its
    due_day is outside 1..28. *)
Theorem range_validation :
  (is_valid (validate_Task (task_with_priority 0)) = false
   ∧ is_valid (validate_Task (task_with_priority 6)) = false
   ∧ is_valid (validate_Task (task_with_priority 1)) = true
   ∧ is_valid (validate_Task (task_with_priority 5)) = true)
  ∧ (is_valid (validate_Bill (bill_with_due_day 0)) = false
     ∧ is_valid (validate_Bill (bill_with_due_day 29)) = false
     ∧ is_valid (validate_Bill (bill_with_due_day 1)) = true
     ∧ is_valid (validate_Bill (bill_with_due_day 28)) = true)
  ∧ (∀ t d p dd est c,
       is_valid (validate_Task
         {| in_title := Val t; in_details := d; in_priority := Val p;
            in_due_date := dd; in_estimated_minutes := est;
            in_category := c |}) = false
       ↔ ¬ (1 ≤ p ≤ 5) ∨ (∃ e, est = Val e ∧ ¬ (5 ≤ e ≤ 600)))
  ∧ (∀ n a d (ap : option bool),
       is_valid (validate_Bill
         {| in_name := Val n; in_amount := Val a; in_due_day := Val d;
            in_autopay := from_option Val Absent ap |}) = false
       ↔ ¬ (1 ≤ d ≤ 28)).
Proof.
  split; [done|]. split; [done|]. split.
  - intros t d p dd est c. unfold validate_Task.
    rewrite !is_valid_ap, !is_valid_optional. simpl.
    pose proof (in_range_is_valid "priority" 1 5 p) as Hp.
    destruct (is_valid (in_range "priority" 1 5 p)) eqn:Ep.
    + assert (1 ≤ p ≤ 5) as Hp' by (by apply Hp).
      destruct est as [| |e]; simpl.
      * destruct d, dd, c; simpl; split; try done;
          intros [?|(e & ? & ?)]; done.
      * destruct d, dd, c; simpl; split; try done;
          intros [?|(e & ? & ?)]; done.
      * pose proof (in_range_is_valid "estimated_minutes" 5 600 e) as He.
        destruct (is_valid (in_range "estimated_minutes" 5 600 e)) eqn:Ee.
        -- assert (5 ≤ e ≤ 600) as He' by (by apply He).
           destruct d, dd, c; simpl; split; try done;
             intros [?|(e' & [= <-] & ?)]; done.
        -- assert (¬ (5 ≤ e ≤ 600)) as He' by (intros ?%He; done).
           destruct d, dd, c; simpl; split; try done;
             intros _; right; by exists e.
    + assert (¬ (1 ≤ p ≤ 5)) as Hp' by (intros ?%Hp; done).
      split; [by left|]. intros _.
      destruct est as [| |e]; destruct d, dd, c; simpl;
        rewrite ?andb_false_r; done.
  - intros n a d ap. unfold validate_Bill.
    rewrite !is_valid_ap. simpl.
    pose proof (in_range_is_valid "due_day" 1 28 d) as Hd.
    destruct (is_valid (in_range "due_day" 1 28 d)) eqn:Ed.
    + assert (1 ≤ d ≤ 28) as Hd' by (by apply Hd).
      destruct ap; simpl; split; done.
    + assert (¬ (1 ≤ d ≤ 28)) as Hd' by (intros ?%Hd; done).
      destruct ap; simpl; split; done.
Qed.

(** C10. A Task body whose estimated_minutes is an explicit null is
    accepted (given a title and a priority in 1..5): the validated record
    holds [None] there, neither the default 30 nor a range violation; and
    the schedule takes the stored task as 30 minutes long, in its sort
    key and in the task loop. *)
Theorem null_estimated_minutes_accepted t d p dd c :
  1 ≤ p ≤ 5 →
  ∃ task,
    validate_Task
      {| in_title := Val t; in_details := d; in_priority := Val p;
         in_due_date := dd; in_estimated_minutes := Null;
         in_category := c |} = Valid task
    ∧ estimated_minutes task = None
    ∧ Schedule.task_estimated_minutes (Database.task_document task) = Null
    ∧ Schedule.est_of (Database.task_document task) = 30
    ∧ Schedule.task_sort_key (Database.task_document task) = (p, 30).
Proof.
  intros Hp. unfold validate_Task. simpl.
  rewrite (in_range_Valid "priority" 1 5 p Hp).
  destruct d, dd, c; simpl; eexists; (split; [reflexivity|done]).
Qed.

Lemma null_estimated_minutes_accepted_witness :
  ∃ task,
    validate_Task
      {| in_title := Val "Write report"; in_details := Absent;
         in_priority := Val 2; in_due_date := Absent;
         in_estimated_minutes := Null; in_category := Val "work" |}
      = Valid task
    ∧ estimated_minutes task = None
    ∧ Schedule.task_estimated_minutes (Database.task_document task) = Null
    ∧ Schedule.est_of (Database.task_document task) = 30
    ∧ Schedule.task_sort_key (Database.task_document task) = (2, 30).
Proof. apply (null_estimated_minutes_accepted "Write report"). lia. Defined.

(** *** What validation lets through *)

Lemma ap_Valid {A B} (f : validated (A → B)) (x : validated A) b :
  f <*> x = Valid b → ∃ g a, f = Valid g ∧ x = Valid a ∧ b = g a.
Proof. destruct f as [g|], x as [a|]; try done. intros [= <-]. eauto. Qed.

Lemma violations_ap {A B} (f : validated (A → B)) (x : validated A) :
  violations (f <*> x) = violations f ++ violations x.
Proof. destruct f, x; simpl; by rewrite ?app_nil_r. Qed.

Lemma in_range_Valid_inv name lo hi n m :
  in_range name lo hi n = Valid m → m = n ∧ lo ≤ n ≤ hi.
Proof.
  unfold in_range. destruct (n <? lo) eqn:H1; [done|].
  destruct (hi <? n) eqn:H2; [done|]. intros [= <-]. lia.
Qed.

Lemma optional_in_range_Valid name dflt lo hi f o :
  optional dflt (in_range name lo hi) f = Valid o →
  (f = Absent ∧ o = dflt) ∨ (f = Null ∧ o = None)
  ∨ (∃ n, f = Val n ∧ o = Some n ∧ lo ≤ n ≤ hi).
Proof.
  destruct f as [| |n]; simpl.
  - intros [= <-]. by left.
  - intros [= <-]. right. by left.
  - destruct (in_range name lo hi n) as [m|] eqn:Hn; [|done].
    apply in_range_Valid_inv in Hn as [-> Hn]. intros [= <-].
    right. right. by exists n.
Qed.

Lemma optional_Valid_inv {A} dflt (f : field A) o :
  optional dflt Valid f = Valid o →
  o = match f with Absent => dflt | Null => None | Val a => Some a end.
Proof. destruct f; simpl; by intros [= <-]. Qed.

Lemma validate_Task_Valid i t :
  validate_Task i = Valid t →
  in_title i = Val (title t)
  ∧ details t = match in_details i with Val a => Some a | _ => None end
  ∧ (in_priority i = Absent ∧ priority t = 3
     ∨ in_priority i = Val (priority t) ∧ 1 ≤ priority t ≤ 5)
  ∧ due_date t = match in_due_date i with Val a => Some a | _ => None end
  ∧ (in_estimated_minutes i = Absent ∧ estimated_minutes t = Some 30
     ∨ in_estimated_minutes i = Null ∧ estimated_minutes t = None
     ∨ ∃ e, in_estimated_minutes i = Val e ∧ estimated_minutes t = Some e
            ∧ 5 ≤ e ≤ 600)
  ∧ category t = match in_category i with Val a => Some a | _ => None end.
Proof.
  unfold validate_Task.
  intros (f5 & c & H5 & Hc & ->)%ap_Valid.
  apply ap_Valid in H5 as (f4 & e & H4 & He & ->).
  apply ap_Valid in H4 as (f3 & dd & H3 & Hdd & ->).
  apply ap_Valid in H3 as (f2 & p & H2 & Hp & ->).
  apply ap_Valid in H2 as (f1 & d & H1 & Hd & ->).
  apply ap_Valid in H1 as (f0 & ti & H0 & Hti & ->).
  injection H0 as <-. simpl.
  apply optional_Valid_inv in Hc, Hdd, Hd.
  apply optional_in_range_Valid in He.
  repeat split.
  - destruct (in_title i); simpl in Hti; try done. by injection Hti as ->.
  - rewrite Hd. by destruct (in_details i).
  - destruct (in_priority i) as [| |p']; simpl in Hp; [|done|].
    + injection Hp as <-. by left.
    + apply in_range_Valid_inv in Hp as [-> Hp]. by right.
  - rewrite Hdd. by destruct (in_due_date i).
  - destruct He as [[-> ->]|[[-> ->]|(n & -> & -> & Hn)]]; eauto 10.
  - rewrite Hc. by destruct (in_category i).
Qed.

(** X15. A task that validation lets through has a priority between 1
    and 5 and, when its estimated_minutes is a number, one between 5 and
    600; the schedule then takes the stored task for between 5 and 600
    minutes and sorts it by a priority between 1 and 5. *)
Theorem validated_task_in_range i t :
  validate_Task i = Valid t →
  1 ≤ priority t ≤ 5
  ∧ (∀ e, estimated_minutes t = Some e → 5 ≤ e ≤ 600)
  ∧ 5 ≤ Schedule.est_of (Database.task_document t) ≤ 600
  ∧ 1 ≤ (Schedule.task_sort_key (Database.task_document t)).1 ≤ 5.
Proof.
  intros (_ & _ & Hp & _ & He & _)%validate_Task_Valid.
  assert (1 ≤ priority t ≤ 5) as Hp' by (destruct Hp as [[_ ->]|[_ Hp]]; lia).
  split; [done|]. split; [|split].
  - intros e Het.
    destruct He as [[_ He]|[[_ He]|(e' & _ & He & Hr)]];
      rewrite He in Het; try done; injection Het as <-; lia.
  - unfold Schedule.est_of. simpl.
    destruct He as [[_ ->]|[[_ ->]|(e' & _ & -> & Hr)]]; simpl; try lia.
    destruct (e' =? 0) eqn:E; lia.
  - simpl. lia.
Qed.

Lemma validated_task_in_range_witness :
  ∃ t,
    validate_Task
      {| in_title := Val "Call the bank"; in_details := Null;
         in_priority := Val 5; in_due_date := Absent;
         in_estimated_minutes := Val 600; in_category := Absent |} = Valid t
    ∧ 5 ≤ Schedule.est_of (Database.task_document t) ≤ 600.
Proof.
  eexists. split; [reflexivity|].
  refine (proj1 (proj2 (proj2 (validated_task_in_range
    {| in_title := Val "Call the bank"; in_details := Null;
       in_priority := Val 5; in_due_date := Absent;
       in_estimated_minutes := Val 600; in_category := Absent |} _ _)))).
  reflexivity.
Defined.

(** X16. A required field that is missing is reported, whatever the other
    fields hold: a Task body without title is rejected with a violation
    for title, a Bill body without name, amount or due_day with one for
    each of them that is missing. *)
Theorem missing_required_field_reported :
  (∀ i, in_title i = Absent →
     is_valid (validate_Task i) = false
     ∧ missing "title" ∈ violations (validate_Task i))
  ∧ (∀ i, in_name i = Absent →
       is_valid (validate_Bill i) = false
       ∧ missing "name" ∈ violations (validate_Bill i))
  ∧ (∀ i, in_amount i = Absent →
       is_valid (validate_Bill i) = false
       ∧ missing "amount" ∈ violations (validate_Bill i))
  ∧ (∀ i, in_due_day i = Absent →
       is_valid (validate_Bill i) = false
       ∧ missing "due_day" ∈ violations (validate_Bill i)).
Proof.
  repeat split.
  - unfold validate_Task. rewrite !is_valid_ap, H. simpl.
    by rewrite ?andb_false_r.
  - unfold validate_Task. rewrite !violations_ap, H. simpl.
    rewrite ?elem_of_app, ?elem_of_cons. eauto 12.
  - unfold validate_Bill. rewrite !is_valid_ap, H. simpl.
    by rewrite ?andb_false_r.
  - unfold validate_Bill. rewrite !violations_ap, H. simpl.
    rewrite ?elem_of_app, ?elem_of_cons. eauto 12.
  - unfold validate_Bill. rewrite !is_valid_ap, H. simpl.
    by rewrite ?andb_false_r.
  - unfold validate_Bill. rewrite !violations_ap, H. simpl.
    rewrite ?elem_of_app, ?elem_of_cons. eauto 12.
  - unfold validate_Bill. rewrite !is_valid_ap, H. simpl.
    by rewrite ?andb_false_r.
  - unfold validate_Bill. rewrite !violations_ap, H. simpl.
    rewrite ?elem_of_app, ?elem_of_cons. eauto 12.
Qed.

Lemma missing_required_field_reported_witness :
  missing "due_day" ∈
    violations (validate_Bill
      {| in_name := Val "Rent"; in_amount := Val (QArith_base.Qmake 900 1);
         in_due_day := Absent; in_autopay := Val true |}).
Proof.
  exact (proj2 (proj2 (proj2 (proj2 missing_required_field_reported))
    {| in_name := Val "Rent"; in_amount := Val (QArith_base.Qmake 900 1);
       in_due_day := Absent; in_autopay := Val true |} eq_refl)).
Defined.

(** X17. A Check-in body with a date is rejected exactly when its energy
    is a number outside 1..10; an energy left out becomes 5 and an
    explicit null stays empty. *)
Theorem checkin_energy_range d m n :
  (∀ en,
     is_valid (validate_Checkin
       {| in_date := Val d; in_mood := m; in_energy := en; in_notes := n |})
     = false
     ↔ ∃ e, en = Val e ∧ ¬ (1 ≤ e ≤ 10))
  ∧ (∃ c, validate_Checkin
            {| in_date := Val d; in_mood := m; in_energy := Absent;
               in_notes := n |} = Valid c
          ∧ energy c = Some 5)
  ∧ (∃ c, validate_Checkin
            {| in_date := Val d; in_mood := m; in_energy := Null;
               in_notes := n |} = Valid c
          ∧ energy c = None).
Proof.
  split; [|split].
  - intros en. unfold validate_Checkin.
    rewrite !is_valid_ap, !is_valid_optional. simpl.
    destruct en as [| |e].
    + destruct m, n; simpl; (split; [done|intros (e & ? & _); done]).
    + destruct m, n; simpl; (split; [done|intros (e & ? & _); done]).
    + pose proof (in_range_is_valid "energy" 1 10 e) as He.
      destruct (is_valid (in_range "energy" 1 10 e)) eqn:Ee.
      * assert (1 ≤ e ≤ 10) as He' by (by apply He).
        destruct m, n; simpl; (split; [done|intros (e' & [= <-] & ?); done]).
      * assert (¬ (1 ≤ e ≤ 10)) as He' by (intros ?%He; done).
        split; [intros _; by exists e|intros _].
        destruct m, n; simpl; by rewrite ?andb_false_r.
  - unfold validate_Checkin. simpl.
    destruct m, n; simpl; eexists; (split; [reflexivity|done]).
  - unfold validate_Checkin. simpl.
    destruct m, n; simpl; eexists; (split; [reflexivity|done]).
Qed.

(** X18. Validation changes nothing in a task it once let through:
    written back as a body with every field given, the validated task is
    accepted again and comes out the same. *)
Theorem validate_Task_idempotent i t :
  validate_Task i = Valid t → validate_Task (dump_Task t) = Valid t.
Proof.
  intros (_ & _ & Hp & _ & He & _)%validate_Task_Valid.
  assert (1 ≤ priority t ≤ 5) as Hp' by (destruct Hp as [[_ ->]|[_ Hp]]; lia).
  destruct t as [ti d p dd e c]. simpl in *.
  unfold validate_Task, dump_Task. simpl.
  rewrite (in_range_Valid "priority" 1 5 p Hp').
  assert (optional (Some 30) (in_range "estimated_minutes" 5 600)
            (dump_optional e) = Valid e) as ->.
  { destruct He as [[_ ->]|[[_ ->]|(e' & _ & -> & Hr)]]; try reflexivity.
    simpl. by rewrite (in_range_Valid "estimated_minutes" 5 600 e' Hr). }
  by destruct d, dd, c.
Qed.

Lemma validate_Task_idempotent_witness :
  validate_Task
    (dump_Task
       {| title := "Water the plants"; details := None; priority := 3;
          due_date := None; estimated_minutes := Some 30; category := None |})
  = Valid
      {| title := "Water the plants"; details := None; priority := 3;
         due_date := None; estimated_minutes := Some 30; category := None |}.
Proof.
  apply (validate_Task_idempotent
    {| in_title := Val "Water the plants"; in_details := Absent;
       in_priority := Absent; in_due_date := Absent;
       in_estimated_minutes := Absent; in_category := Absent |}).
  reflexivity.
Defined.

End SchemasSpec.

(** ** Meal suggestions *)

Module MealsSpec.
Import Py Meals.

Lemma has_pair have a b :
  has have [a; b] = bool_decide (a ∈ have ∧ b ∈ have).
Proof.
  unfold has. simpl. rewrite andb_true_r.
  repeat case_bool_decide; simpl; tauto.
Qed.

Lemma has_rule1 have : has have ["eggs"; "bread"] = bool_decide (rule1 have).
Proof. apply has_pair. Qed.

Lemma has_rule2 have :
  has have ["pasta"; "tomato sauce"] || has have ["pasta"; "tomatoes"]
  = bool_decide (rule2 have).
Proof.
  rewrite !has_pair. unfold rule2.
  repeat case_bool_decide; simpl; tauto.
Qed.

Lemma has_rule3 have : has have ["rice"; "beans"] = bool_decide (rule3 have).
Proof. apply has_pair. Qed.

Lemma has_rule4 have :
  has have ["tortilla"; "cheese"] = bool_decide (rule4 have).
Proof. apply has_pair. Qed.

(** The endpoint computes the rule-based suggestions, followed by the
    fallback when there is none of them and the set is not empty. *)
Lemma suggest_meals_unfold list_of_set pantry :
  suggest_meals list_of_set pantry =
    rule_based (have_of pantry) ++
    (if is_empty (rule_based (have_of pantry)) && bool_decide (have_of pantry ≠ ∅)
     then [pantry_mix_bowl (take 5 (list_of_set (names_of pantry)))] else []).
Proof.
  unfold suggest_meals, rule_based.
  rewrite has_rule1, has_rule2, has_rule3, has_rule4.
  generalize (bool_decide (have_of pantry ≠ ∅)); intros nonempty.
  generalize (pantry_mix_bowl (take 5 (list_of_set (names_of pantry)))); intros bowl.
  unfold bool_decide, decide.
  destruct (rule1_dec (have_of pantry));
    destruct (rule2_dec (have_of pantry));
    destruct (rule3_dec (have_of pantry));
    destruct (rule4_dec (have_of pantry));
    simpl; by destruct nonempty.
Qed.

Lemma rule_based_none have : no_rule_matched have → rule_based have = [].
Proof.
  intros (H1 & H2 & H3 & H4). unfold rule_based.
  by rewrite !decide_False.
Qed.

(** The set is empty exactly when there is no pantry document. *)
Lemma have_of_empty pantry : have_of pantry = ∅ ↔ pantry = [].
Proof.
  split; [|by intros ->].
  destruct pantry as [|p pantry]; [done|].
  unfold have_of. simpl. set_solver.
Qed.

Lemma elem_of_have_of x pantry :
  x ∈ have_of pantry ↔ ∃ p, p ∈ pantry ∧ x = lower (default "" (name p)).
Proof.
  unfold have_of. rewrite elem_of_list_to_set, list_elem_of_fmap.
  split; intros (p & H1 & H2); exists p; done.
Qed.

(** Keeping the first occurrence of each name is one way of listing the
    set, with an order that follows the insertions. *)
Lemma remove_dups_lists_the_set (names : list string) :
  remove_dups names ≡ₚ elements (list_to_set names : gset string).
Proof.
  apply NoDup_Permutation; [apply NoDup_remove_dups|apply NoDup_elements|].
  intros x. by rewrite elem_of_remove_dups, elem_of_elements, elem_of_list_to_set.
Qed.

(** C6. The four rules are evaluated each on its own and in the order 1
    to 4 over the set of lower-cased names: the suggestions are the
    rule-based ones of the specification, in that order, followed at most
    by the fallback entry, which comes only when no rule matched. For a
    pantry whose lower-cased names are exactly eggs and bread the list is
    the Egg toast suggestion alone. *)
Theorem rules_independent_in_order list_of_set pantry :
  (∃ fallback,
     suggest_meals list_of_set pantry = rule_based (have_of pantry) ++ fallback
     ∧ (fallback = []
        ∨ (rule_based (have_of pantry) = []
           ∧ ∃ names, fallback = [pantry_mix_bowl names])))
  ∧ (have_of pantry = {[ "eggs"; "bread" ]} →
     suggest_meals list_of_set pantry = [egg_toast]).
Proof.
  split.
  - rewrite suggest_meals_unfold. eexists. split; [done|].
    destruct (rule_based (have_of pantry)); simpl; [|by left].
    destruct (bool_decide _); [|by left]. right. eauto.
  - intros Hhave. rewrite suggest_meals_unfold, Hhave. done.
Qed.

Lemma rules_independent_in_order_witness :
  have_of [ {| name := Some "Eggs" |}; {| name := Some "BREAD" |} ]
    = {[ "eggs"; "bread" ]}
  ∧ suggest_meals remove_dups
      [ {| name := Some "Eggs" |}; {| name := Some "BREAD" |} ] = [egg_toast].
Proof.
  split; [by vm_compute|].
  apply (rules_independent_in_order remove_dups). by vm_compute.
Defined.

(** C7. When none of the four rules matched and the pantry is not empty,
    the list is exactly one Pantry mix bowl entry: its ingredients are the
    first five names (all of them if fewer) in the order the set is
    iterated in, distinct lower-cased names of pantry items; its one step
    is the combine-and-season sentence and its tag is creative. When the
    pantry is empty the list is empty. *)
Theorem fallback_pantry_mix_bowl list_of_set pantry :
  (∀ names, list_of_set names ≡ₚ elements (list_to_set names : gset string)) →
  no_rule_matched (have_of pantry) →
  (pantry ≠ [] →
   ∃ names,
     suggest_meals list_of_set pantry =
       [ {| title := "Pantry mix bowl";
            ingredients := names;
            steps := ["Combine ingredients you have and season to taste"];
            tags := ["creative"] |} ]
     ∧ names = take 5 (list_of_set (names_of pantry))
     ∧ NoDup names
     ∧ (∀ x, x ∈ names → ∃ p, p ∈ pantry ∧ x = lower (default "" (name p)))
     ∧ length names = Nat.min 5 (size (have_of pantry)))
  ∧ (pantry = [] → suggest_meals list_of_set pantry = []).
Proof.
  intros Hlist Hnone. rewrite suggest_meals_unfold, rule_based_none by done.
  simpl. split.
  - intros Hpantry.
    rewrite bool_decide_eq_true_2 by (by rewrite have_of_empty).
    eexists. split; [reflexivity|]. split; [done|].
    pose proof (Hlist (names_of pantry)) as Hnames.
    change (list_to_set (names_of pantry)) with (have_of pantry) in Hnames.
    assert (NoDup (list_of_set (names_of pantry))) as Hnodup.
    { rewrite Hnames. apply NoDup_elements. }
    split; [|split].
    + eapply sublist_NoDup; [done|apply sublist_take].
    + intros x (i & Hx%list_elem_of_lookup_2 & _)%elem_of_take.
      apply elem_of_have_of.
      rewrite Hnames in Hx. by apply elem_of_elements in Hx.
    + rewrite length_take. f_equal. by rewrite Hnames.
  - intros ->. done.
Qed.

Lemma fallback_pantry_mix_bowl_witness :
  no_rule_matched
    (have_of [ {| name := Some "Milk" |}; {| name := Some "butter" |} ])
  ∧ ∃ names,
      suggest_meals remove_dups
        [ {| name := Some "Milk" |}; {| name := Some "butter" |} ] =
        [ {| title := "Pantry mix bowl";
             ingredients := names;
             steps := ["Combine ingredients you have and season to taste"];
             tags := ["creative"] |} ]
      ∧ length names = 2%nat.
Proof.
  assert (no_rule_matched
    (have_of [ {| name := Some "Milk" |}; {| name := Some "butter" |} ])) as Hnone.
  { apply (bool_decide_unpack _). by vm_compute. }
  split; [exact Hnone|].
  destruct (fallback_pantry_mix_bowl remove_dups
    [ {| name := Some "Milk" |}; {| name := Some "butter" |} ]
    remove_dups_lists_the_set Hnone) as [Hbowl _].
  destruct (Hbowl ltac:(done)) as (names & Heq & _ & _ & _ & Hlen).
  exists names. split; [exact Heq|]. rewrite Hlen. by vm_compute.
Defined.

(** *** What the suggestions depend on *)

Lemma lower_ascii_idemp c : lower_ascii (lower_ascii c) = lower_ascii c.
Proof. by destruct c as [[] [] [] [] [] [] [] []]. Qed.

Lemma lower_idemp s : lower (lower s) = lower s.
Proof.
  induction s as [|c s IH]; simpl; [done|]. by rewrite lower_ascii_idemp, IH.
Qed.

Lemma have_of_app pantry1 pantry2 :
  have_of (pantry1 ++ pantry2) = have_of pantry1 ∪ have_of pantry2.
Proof. unfold have_of. by rewrite fmap_app, list_to_set_app_L. Qed.

Lemma have_of_Permutation pantry1 pantry2 :
  pantry1 ≡ₚ pantry2 → have_of pantry1 = have_of pantry2.
Proof.
  intros Hperm. apply set_eq. intros x. rewrite !elem_of_have_of.
  split; intros (p & Hp & ->); exists p; split; try done.
  - by rewrite <- Hperm.
  - by rewrite Hperm.
Qed.

Lemma same_but_bowl_ingredients_refl l :
  Forall2 same_but_bowl_ingredients l l.
Proof. induction l; constructor; [by repeat split|done]. Qed.

Lemma same_names_same_suggestions list_of_set pantry pantry' :
  have_of pantry' = have_of pantry →
  Forall2 same_but_bowl_ingredients
    (suggest_meals list_of_set pantry') (suggest_meals list_of_set pantry).
Proof.
  intros Hhave. rewrite !suggest_meals_unfold, Hhave.
  apply Forall2_app; [apply same_but_bowl_ingredients_refl|].
  destruct (_ && _); constructor; [|constructor].
  by repeat split.
Qed.

(** X11. Beyond the ingredients of the Pantry mix bowl, which follow the
    order in which the set is iterated, the suggestions depend only on the
    set of lower-cased names: fetching the pantry documents in another
    order or fetching each of them twice gives suggestions with the same
    titles, steps and tags, those of the four rules being the same
    altogether; and writing the names in lower case beforehand gives the
    very same list. *)
Theorem suggestions_ignore_order_repeats_case list_of_set pantry :
  (∀ pantry', pantry ≡ₚ pantry' →
     Forall2 same_but_bowl_ingredients
       (suggest_meals list_of_set pantry') (suggest_meals list_of_set pantry))
  ∧ Forall2 same_but_bowl_ingredients
      (suggest_meals list_of_set (pantry ++ pantry))
      (suggest_meals list_of_set pantry)
  ∧ suggest_meals list_of_set
      ((λ p, {| name := Some (lower (default "" (name p))) |}) <$> pantry)
    = suggest_meals list_of_set pantry.
Proof.
  split; [|split].
  - intros pantry' Hperm. apply same_names_same_suggestions.
    symmetry. by apply have_of_Permutation.
  - apply same_names_same_suggestions.
    by rewrite have_of_app, (union_idemp_L (have_of pantry)).
  - assert (names_of ((λ p, {| name := Some (lower (default "" (name p))) |})
                        <$> pantry) = names_of pantry) as Hnames.
    { unfold names_of. rewrite <- list_fmap_compose.
      apply list_fmap_ext. intros i p _. simpl. by rewrite lower_idemp. }
    assert (have_of ((λ p, {| name := Some (lower (default "" (name p))) |})
                       <$> pantry) = have_of pantry) as Hhave.
    { change (have_of ?p) with (list_to_set (names_of p) : gset string).
      by rewrite Hnames. }
    by rewrite !suggest_meals_unfold, Hhave, Hnames.
Qed.

Lemma suggestions_ignore_order_repeats_case_witness :
  Forall2 same_but_bowl_ingredients
    (suggest_meals remove_dups
       [ {| name := Some "Bread" |}; {| name := Some "EGGS" |} ])
    (suggest_meals remove_dups
       [ {| name := Some "EGGS" |}; {| name := Some "Bread" |} ]).
Proof.
  apply (proj1 (suggestions_ignore_order_repeats_case remove_dups
    [ {| name := Some "EGGS" |}; {| name := Some "Bread" |} ])).
  apply Permutation_swap.
Defined.

(** In the model as in Python, the ingredients of the bowl may follow the
    order of the documents. *)
Example bowl_ingredients_follow_insertion :
  ingredients <$> suggest_meals remove_dups
    [ {| name := Some "milk" |}; {| name := Some "butter" |} ]
  = [["milk"; "butter"]]
  ∧ ingredients <$> suggest_meals remove_dups
      [ {| name := Some "butter" |}; {| name := Some "milk" |} ]
    = [["butter"; "milk"]].
Proof. split; reflexivity. Qed.

Lemma rule_based_length have : (length (rule_based have) ≤ 4)%nat.
Proof. unfold rule_based. repeat case_decide; simpl; lia. Qed.

Lemma rule_based_titles have s :
  s ∈ rule_based have → title s ≠ "Pantry mix bowl".
Proof.
  unfold rule_based. rewrite !elem_of_app.
  repeat case_decide; rewrite ?list_elem_of_singleton, ?elem_of_nil;
    intros Hs; destruct_or!; subst; done.
Qed.

(** X12. There are never more than four suggestions, and at least one as
    soon as the pantry has a document. The Pantry mix bowl never comes
    beside another suggestion: a list that holds it holds nothing else. *)
Theorem suggestions_count list_of_set pantry :
  (length (suggest_meals list_of_set pantry) ≤ 4)%nat
  ∧ (pantry ≠ [] → suggest_meals list_of_set pantry ≠ [])
  ∧ (∀ s, s ∈ suggest_meals list_of_set pantry →
       title s = "Pantry mix bowl" → suggest_meals list_of_set pantry = [s]).
Proof.
  rewrite suggest_meals_unfold.
  pose proof (rule_based_length (have_of pantry)) as Hlen.
  pose proof (rule_based_titles (have_of pantry)) as Htitles.
  destruct (rule_based (have_of pantry)) as [|s0 l] eqn:Hrules; simpl.
  - split; [case_bool_decide; simpl; lia|]. split.
    + intros Hpantry. rewrite bool_decide_eq_true_2; [done|].
      by rewrite have_of_empty.
    + intros s. case_bool_decide; simpl; [|by intros ?%elem_of_nil].
      by intros ->%list_elem_of_singleton.
  - rewrite app_nil_r. split; [simpl in Hlen; lia|]. split; [done|].
    intros s Hs Htitle. by apply Htitles in Hs.
Qed.

Lemma rule_based_mono have have' s :
  have ⊆ have' → s ∈ rule_based have → s ∈ rule_based have'.
Proof.
  intros Hsub. unfold rule_based. rewrite !elem_of_app.
  assert (rule1 have → rule1 have') as H1
    by (unfold rule1; intros [? ?]; split; by apply Hsub).
  assert (rule2 have → rule2 have') as H2.
  { unfold rule2. intros [Hpasta [Hsauce|Htomatoes]].
    - split; [|left]; by apply Hsub.
    - split; [|right]; by apply Hsub. }
  assert (rule3 have → rule3 have') as H3
    by (unfold rule3; intros [? ?]; split; by apply Hsub).
  assert (rule4 have → rule4 have') as H4
    by (unfold rule4; intros [? ?]; split; by apply Hsub).
  intros [Hs|[Hs|[Hs|Hs]]].
  - left. destruct (decide (rule1 have)); [|by apply elem_of_nil in Hs].
    by rewrite decide_True by auto.
  - right; left. destruct (decide (rule2 have)); [|by apply elem_of_nil in Hs].
    by rewrite decide_True by auto.
  - right; right; left.
    destruct (decide (rule3 have)); [|by apply elem_of_nil in Hs].
    by rewrite decide_True by auto.
  - right; right; right.
    destruct (decide (rule4 have)); [|by apply elem_of_nil in Hs].
    by rewrite decide_True by auto.
Qed.

(** X13. A suggestion made by one of the four rules stays when documents
    are added to the pantry: only the Pantry mix bowl can go. *)
Theorem added_items_keep_rule_suggestions list_of_set pantry more s :
  s ∈ suggest_meals list_of_set pantry →
  title s ≠ "Pantry mix bowl" →
  s ∈ suggest_meals list_of_set (pantry ++ more).
Proof.
  rewrite !suggest_meals_unfold, !elem_of_app. intros [Hs|Hs] Htitle.
  - left. eapply rule_based_mono; [|exact Hs].
    rewrite have_of_app. apply union_subseteq_l.
  - destruct (_ && _); [|by apply elem_of_nil in Hs].
    apply list_elem_of_singleton in Hs as ->. done.
Qed.

Lemma added_items_keep_rule_suggestions_witness :
  egg_toast ∈ suggest_meals remove_dups
    ([ {| name := Some "Eggs" |}; {| name := Some "bread" |} ]
     ++ [ {| name := Some "rice" |}; {| name := Some "beans" |} ]).
Proof.
  apply (added_items_keep_rule_suggestions remove_dups); [|done].
  vm_compute. left.
Defined.

(** X14. Pantry documents without a name count as the empty name: a
    pantry that holds nothing else gets the Pantry mix bowl with the empty
    string as its one ingredient. *)
Theorem nameless_items_make_a_bowl list_of_set pantry :
  (∀ names, list_of_set names ≡ₚ elements (list_to_set names : gset string)) →
  pantry ≠ [] →
  Forall (λ p, name p = None) pantry →
  suggest_meals list_of_set pantry = [pantry_mix_bowl [""]].
Proof.
  intros Hlist Hpantry Hnameless.
  assert (have_of pantry = {[ "" ]}) as Hhave.
  { apply set_eq. intros x. rewrite elem_of_have_of, elem_of_singleton.
    rewrite list.Forall_forall in Hnameless. split.
    - intros (p & Hp & ->). by rewrite (Hnameless p Hp).
    - intros ->. destruct pantry as [|p pantry]; [done|].
      exists p. split; [left|]. by rewrite (Hnameless p) by left. }
  assert (list_of_set (names_of pantry) = [""]) as Hnames.
  { apply Permutation_singleton_r. rewrite Hlist.
    change (list_to_set (names_of pantry)) with (have_of pantry).
    by rewrite Hhave, elements_singleton. }
  rewrite suggest_meals_unfold, Hhave, Hnames. done.
Qed.

Lemma nameless_items_make_a_bowl_witness :
  suggest_meals remove_dups [ {| name := None |}; {| name := None |} ]
  = [pantry_mix_bowl [""]].
Proof.
  apply (nameless_items_make_a_bowl remove_dups);
    [apply remove_dups_lists_the_set|done|by repeat constructor].
Defined.

End MealsSpec.

(** ** The daily schedule *)

Module ScheduleSpec.
Import Py Schedule ScheduleTerms.

(** *** Date arithmetic *)

Lemma plus_minutes_Some today d n r :
  plus_minutes today d n = Some r → r = d + n.
Proof.
  unfold plus_minutes, timedelta, add. intros H.
  destruct (_ && _); simpl in H; [|done].
  destruct (representable _ _); by inversion H.
Qed.

(** Within today nothing overflows. *)
Lemma plus_minutes_today today d n :
  valid_date today → 0 ≤ n < 1440 → 0 ≤ d + n < 1440 →
  plus_minutes today d n = Some (d + n).
Proof.
  intros [Hlo Hhi] Hn Hdn. unfold plus_minutes, timedelta, add.
  rewrite (Z.div_small n 1440) by done. simpl.
  unfold representable, toordinal, MAXORDINAL in *.
  rewrite (Z.div_small (d + n) 1440) by done.
  destruct (1 <=? today + 0) eqn:H1; [|lia].
  destruct (today + 0 <=? 3652059) eqn:H2; [done|lia].
Qed.

(** *** Routine reminders *)

Lemma or_str_get_none f :
  or_str (get_none f) "" = match f with Val s => s | _ => "" end.
Proof. destruct f as [| |s]; simpl; try done. by destruct s. Qed.

Lemma routine_time_anchor f :
  routine_time (lower (or_str (get_none f) "")) = anchor f.
Proof.
  rewrite or_str_get_none. unfold routine_time, anchor. simpl.
  repeat match goal with
  | |- context [String.eqb ?a ?b] =>
      destruct (String.eqb_spec a b); [rewrite decide_True by done|
                                       rewrite decide_False by done]
  end; done.
Qed.

Lemma anchor_today f : 0 ≤ anchor f ∧ anchor f + 15 < 1440.
Proof. unfold anchor. simpl. repeat case_decide; lia. Qed.

Lemma routine_block_reminder today r :
  valid_date today → routine_block today r = Some (reminder r).
Proof.
  intros Htoday. unfold routine_block. rewrite routine_time_anchor.
  pose proof (anchor_today (routine_preferred_time r)) as [? ?].
  rewrite plus_minutes_today by (done || lia). done.
Qed.

Lemma routine_blocks_reminders today routines :
  valid_date today →
  routine_blocks today routines = Some (reminder <$> routines).
Proof.
  intros Htoday. unfold routine_blocks. apply mapM_Some.
  induction routines as [|r routines IH]; simpl; [constructor|].
  constructor; [by apply routine_block_reminder|done].
Qed.

(** *** What the endpoint returns *)

Lemma generate_schedule_Some today tasks routines req resp :
  generate_schedule today tasks routines req = Some resp ↔
  ∃ s e rb st,
    parse_hhmm (or_str (start_time req) "09:00") = Some s
    ∧ parse_hhmm (or_str (end_time req) "18:00") = Some e
    ∧ routine_blocks today routines = Some rb
    ∧ while_loop today req e (tasks_sorted tasks) (initial_state s) = Some st
    ∧ resp = {| date_ := today;
                blocks := sorted Z.ltb start (blocks_so_far st ++ rb) |}.
Proof.
  unfold generate_schedule. split.
  - intros H.
    destruct (parse_hhmm (or_str (start_time req) "09:00")) as [s|]; [|done].
    destruct (parse_hhmm (or_str (end_time req) "18:00")) as [e|]; [|done].
    simpl in H.
    destruct (routine_blocks today routines) as [rb|]; [|done]. simpl in H.
    destruct (while_loop today req e (tasks_sorted tasks) (initial_state s))
      as [st|] eqn:Hloop; [|done].
    simpl in H. injection H as <-. by exists s, e, rb, st.
  - intros (s & e & rb & st & -> & -> & -> & Hloop & ->). simpl.
    by rewrite Hloop.
Qed.

(** *** One turn of the task loop *)

Lemma loop_body_Continue today req e t st st' :
  loop_body today req e t st = Some (Continue st') →
  cursor st + est_of t ≤ e ∧ turn req e t st st'.
Proof.
  unfold loop_body, take_break. intros H.
  destruct (plus_minutes today (cursor st) (est_of t)) as [block_end|] eqn:Hend;
    [|done].
  apply plus_minutes_Some in Hend as ->. simpl in H.
  destruct (e <? cursor st + est_of t) eqn:Hfit; [done|].
  split; [lia|]. simpl in H.
  destruct (break_every_minutes req <=? minutes_since_break st + est_of t)
    eqn:Hdue; simpl in H.
  - destruct (plus_minutes today (cursor st + est_of t) (break_minutes req))
      as [b_end|] eqn:Hb; [|done].
    apply plus_minutes_Some in Hb as ->. simpl in H.
    destruct (cursor st + est_of t + break_minutes req <=? e) eqn:Hbfit;
      injection H as <-.
    + apply turn_break; lia.
    + apply turn_break_dropped; lia.
  - injection H as <-. apply turn_no_break. lia.
Qed.

Lemma loop_body_Break today req e t st :
  loop_body today req e t st = Some Break → e < cursor st + est_of t.
Proof.
  unfold loop_body. intros H.
  destruct (plus_minutes today (cursor st) (est_of t)) as [block_end|] eqn:Hend;
    [|done].
  apply plus_minutes_Some in Hend as ->. simpl in H.
  destruct (e <? cursor st + est_of t) eqn:Hfit; [lia|].
  simpl in H. by destruct (take_break _ _ _ _).
Qed.

(** Below the break threshold the turn ends with the task. *)
Lemma loop_body_no_break today req e t st block_end :
  plus_minutes today (cursor st) (est_of t) = Some block_end →
  block_end ≤ e →
  minutes_since_break st + est_of t < break_every_minutes req →
  loop_body today req e t st =
    Some (Continue
      {| cursor := block_end;
         blocks_so_far := blocks_so_far st ++ [task_block t (cursor st)];
         minutes_since_break := minutes_since_break st + est_of t |}).
Proof.
  intros Hend Hfit Hdue. unfold loop_body, take_break. rewrite Hend. simpl.
  pose proof (plus_minutes_Some _ _ _ _ Hend) as ->.
  destruct (e <? cursor st + est_of t) eqn:E; [lia|]. simpl.
  destruct (break_every_minutes req <=? _) eqn:E'; [lia|]. done.
Qed.

(** C1. After a task block is emitted, when the counter has reached
    break_every_minutes: if the break's end, break_minutes after the
    cursor, does not exceed the end instant, the turn of the loop ends
    with a Break block from the cursor to that end appended after the task
    block and with the cursor at that end; otherwise it ends with the task
    block alone and the cursor where the task ended; either way the
    counter is 0. That state is the one the next task is considered from,
    and the result of the loop when no task is left. *)
Theorem break_after_task today req e t rest st block_end b_end :
  cursor st < e →
  plus_minutes today (cursor st) (est_of t) = Some block_end →
  block_end ≤ e →
  break_every_minutes req ≤ minutes_since_break st + est_of t →
  plus_minutes today block_end (break_minutes req) = Some b_end →
  let emitted :=
    blocks_so_far st ++
      [{| title := default "Task" (task_title t); start := cursor st;
          end_ := block_end; type := task;
          priority := Some (default 3 (task_priority t)) |}] in
  let with_break :=
    {| cursor := b_end;
       blocks_so_far := emitted ++
         [{| title := "Break"; start := block_end; end_ := b_end;
             type := break; priority := None |}];
       minutes_since_break := 0 |} in
  let without_break :=
    {| cursor := block_end; blocks_so_far := emitted;
       minutes_since_break := 0 |} in
  b_end = block_end + break_minutes req
  ∧ (b_end ≤ e →
     loop_body today req e t st = Some (Continue with_break)
     ∧ while_loop today req e [t] st = Some with_break
     ∧ while_loop today req e (t :: rest) st =
         while_loop today req e rest with_break)
  ∧ (e < b_end →
     loop_body today req e t st = Some (Continue without_break)
     ∧ while_loop today req e [t] st = Some without_break
     ∧ while_loop today req e (t :: rest) st =
         while_loop today req e rest without_break).
Proof.
  intros Hcur Hend Hfit Hdue Hb emitted with_break without_break.
  split; [by apply plus_minutes_Some in Hb|].
  assert (loop_body today req e t st =
    Some (Continue (if b_end <=? e then with_break else without_break)))
    as Hbody.
  { unfold loop_body, take_break. rewrite Hend. simpl.
    destruct (e <? block_end) eqn:E; [lia|]. simpl.
    destruct (break_every_minutes req <=? _) eqn:E'; [|lia].
    rewrite Hb. simpl. by destruct (b_end <=? e). }
  assert (∀ tasks, while_loop today req e (t :: tasks) st =
    while_loop today req e tasks
      (if b_end <=? e then with_break else without_break)) as Hloop.
  { intros tasks. simpl. destruct (cursor st <? e) eqn:E; [|lia].
    by rewrite Hbody. }
  split; intros Hcmp.
  - destruct (b_end <=? e) eqn:E; [|lia].
    split; [exact Hbody|]. split; [exact (Hloop [])|exact (Hloop rest)].
  - destruct (b_end <=? e) eqn:E; [lia|].
    split; [exact Hbody|]. split; [exact (Hloop [])|exact (Hloop rest)].
Qed.

Lemma break_after_task_witness :
  let st := initial_state (9 * 60) in
  let t := {| task_title := Some "Deep work"; task_priority := Some 1;
              task_estimated_minutes := Val 90 |} in
  let with_break :=
    {| cursor := 640;
       blocks_so_far :=
         [{| title := "Deep work"; start := 540; end_ := 630; type := task;
             priority := Some 1 |};
          {| title := "Break"; start := 630; end_ := 640; type := break;
             priority := None |}];
       minutes_since_break := 0 |} in
  loop_body 739925 default_request (18 * 60) t st = Some (Continue with_break)
  ∧ while_loop 739925 default_request (18 * 60) [t] st = Some with_break.
Proof.
  intros st t with_break.
  assert (cursor st < 18 * 60) as Hcur by (by vm_compute).
  assert (plus_minutes 739925 (cursor st) (est_of t) = Some 630) as Hend
    by reflexivity.
  assert (630 ≤ 18 * 60) as Hfit by lia.
  assert (break_every_minutes default_request
          ≤ minutes_since_break st + est_of t) as Hdue by (by vm_compute).
  assert (plus_minutes 739925 630 (break_minutes default_request) = Some 640)
    as Hb by reflexivity.
  destruct (break_after_task 739925 default_request (18 * 60) t [] st 630 640
              Hcur Hend Hfit Hdue Hb) as (_ & Hfits & _).
  destruct (Hfits ltac:(lia)) as (Hbody & Hlast & _).
  split; [exact Hbody|exact Hlast].
Defined.

(** The same case when the break does not fit: a 45-minute break after
    90 minutes of work in a window that ends at 11:00. *)
Example break_that_does_not_fit_is_dropped :
  while_loop 739925
    {| start_time := Some "09:00"; end_time := Some "11:00";
       break_every_minutes := 90; break_minutes := 45 |}
    (11 * 60)
    [ {| task_title := Some "Deep work"; task_priority := Some 1;
         task_estimated_minutes := Val 90 |} ]
    (initial_state (9 * 60))
  = Some {| cursor := 630;
            blocks_so_far :=
              [{| title := "Deep work"; start := 540; end_ := 630;
                  type := task; priority := Some 1 |}];
            minutes_since_break := 0 |}.
Proof. reflexivity. Qed.

(** *** The order of the tasks *)

Lemma task_sort_key_spec t : task_sort_key t = spec_key t.
Proof.
  unfold task_sort_key, spec_key, est_of. f_equal.
  destruct (task_estimated_minutes t) as [| |n]; simpl; try done.
  case_decide; subst; simpl; [done|].
  destruct (n =? 0) eqn:E; [lia|done].
Qed.

Lemma tuple_ltb_lex_le a b : tuple_ltb b a = false ↔ lex_le a b.
Proof. unfold tuple_ltb, lex_le. destruct a, b; simpl. lia. Qed.

Lemma StronglySorted_impl {A} (R1 R2 : relation A) l :
  (∀ x y, R1 x y → R2 x y) → StronglySorted R1 l → StronglySorted R2 l.
Proof.
  intros HR. induction 1 as [|x l Hl IH Hx]; constructor; [done|].
  eapply Forall_impl; [exact Hx|]. intros y. apply HR.
Qed.

(** C3. The tasks are put in ascending order of the pair (priority,
    estimated_minutes), the priority being 3 when absent and the
    estimated_minutes 30 when absent, null or 0: the sorted list holds the
    same documents, each before all those whose pair is not smaller, so
    the numerically lowest priorities come first and among equal
    priorities the shorter estimates. *)
Theorem tasks_sorted_by_priority_then_estimate tasks :
  tasks_sorted tasks ≡ₚ tasks
  ∧ StronglySorted (λ t u, lex_le (spec_key t) (spec_key u)) (tasks_sorted tasks)
  ∧ (∀ t, task_sort_key t = spec_key t).
Proof.
  split; [apply PyFacts.sorted_Permutation|]. split; [|apply task_sort_key_spec].
  eapply StronglySorted_impl;
    [|apply (PyFacts.sorted_StronglySorted tuple_ltb task_sort_key
               PyFacts.tuple_ltb_asym PyFacts.tuple_ltb_le_trans)].
  intros t u Htu. unfold key_le in Htu.
  rewrite <- !task_sort_key_spec. by apply tuple_ltb_lex_le.
Qed.

(** *** The task loop as a whole *)

Lemma task_blocks_app bs1 bs2 :
  task_blocks (bs1 ++ bs2) = task_blocks bs1 ++ task_blocks bs2.
Proof. apply filter_app. Qed.

Lemma turn_task_blocks req e t st st' :
  turn req e t st st' →
  task_blocks (blocks_so_far st') =
    task_blocks (blocks_so_far st) ++ [task_block t (cursor st)].
Proof.
  destruct 1; simpl; rewrite !task_blocks_app; try reflexivity.
  rewrite <- app_assoc. reflexivity.
Qed.

Lemma turn_no_routine req e t st st' :
  turn req e t st st' →
  Forall (λ b, type b ≠ routine) (blocks_so_far st) →
  Forall (λ b, type b ≠ routine) (blocks_so_far st').
Proof.
  destruct 1; simpl; intros Hst; rewrite ?Forall_app; repeat split;
    try done; by repeat constructor.
Qed.

(** What holds before the loop and is kept by every turn holds after it. *)
Lemma while_loop_invariant (P : loop_state → Prop) today req e tasks st st' :
  (∀ t st1 st2, t ∈ tasks → cursor st1 < e → cursor st1 + est_of t ≤ e →
     turn req e t st1 st2 → P st1 → P st2) →
  while_loop today req e tasks st = Some st' → P st → P st'.
Proof.
  revert st. induction tasks as [|t tasks IH]; simpl; intros st Hturn.
  - by intros [= <-].
  - destruct (cursor st <? e) eqn:Hcur; [|by intros [= <-]].
    destruct (loop_body today req e t st) as [[st1|]|] eqn:Hbody; simpl;
      [| by intros [= <-] | done].
    apply loop_body_Continue in Hbody as [Hfit Hst1].
    intros Hloop HP. apply (IH st1); [|done|].
    + intros t' st2 st3 Ht'. apply Hturn. by right.
    + eapply (Hturn t); eauto; [by left|lia].
Qed.

(** The loop lays the tasks of a prefix of its list, in order, and goes
    on as long as there is a task, the cursor is before the end and the
    task fits. *)
Lemma while_loop_prefix today req e tasks st st' :
  while_loop today req e tasks st = Some st' →
  ∃ n,
    block_view <$> task_blocks (blocks_so_far st') =
      (block_view <$> task_blocks (blocks_so_far st))
      ++ (task_view <$> take n tasks)
    ∧ (n = length tasks
       ∨ ∃ t, tasks !! n = Some t
              ∧ (e ≤ cursor st' ∨ e < cursor st' + est_of t)).
Proof.
  revert st. induction tasks as [|t tasks IH]; simpl; intros st.
  - intros [= <-]. exists 0%nat. rewrite app_nil_r. auto.
  - destruct (cursor st <? e) eqn:Hcur.
    + destruct (loop_body today req e t st) as [[st1|]|] eqn:Hbody; simpl;
        [| |done].
      * intros Hloop. apply loop_body_Continue in Hbody as [Hfit Hst1].
        destruct (IH st1 Hloop) as (n & Hn & Hstop).
        exists (S n). split.
        -- rewrite Hn, (turn_task_blocks _ _ _ _ _ Hst1). simpl.
           rewrite fmap_app, <- app_assoc. simpl. do 3 f_equal.
           unfold block_view, task_view. simpl. do 2 f_equal. lia.
        -- destruct Hstop as [->|Hstop]; [by left|by right].
      * intros [= <-]. apply loop_body_Break in Hbody.
        exists 0%nat. rewrite app_nil_r. split; [done|].
        right. exists t. split; [done|]. by right.
    + intros [= <-]. exists 0%nat. rewrite app_nil_r. split; [done|].
      right. exists t. split; [done|]. left. lia.
Qed.


Lemma while_loop_no_routine today req e tasks s st :
  while_loop today req e tasks (initial_state s) = Some st →
  Forall (λ b, type b ≠ routine) (blocks_so_far st).
Proof.
  intros Hloop.
  eapply (while_loop_invariant
    (λ st, Forall (λ b, type b ≠ routine) (blocks_so_far st)));
    [|exact Hloop|constructor].
  intros t st1 st2 _ _ _. apply turn_no_routine.
Qed.

(** *** The blocks of the response *)

(** The sort by start instant orders the instants as integers. *)
Lemma sorted_by_start_StronglySorted bs :
  StronglySorted (λ a b, start a ≤ start b) (sorted Z.ltb start bs).
Proof.
  eapply StronglySorted_impl;
    [|apply (PyFacts.sorted_StronglySorted Z.ltb start
               PyFacts.Z_ltb_asym PyFacts.Z_ltb_le_trans)].
  intros a b Hab. unfold key_le in Hab. lia.
Qed.

Lemma sorted_by_start_filter (P : Block → Prop) `{!∀ b, Decision (P b)} bs :
  filter P (sorted Z.ltb start bs) = sorted Z.ltb start (filter P bs).
Proof.
  apply PyFacts.sorted_filter;
    [apply PyFacts.Z_ltb_asym|apply PyFacts.Z_ltb_le_trans].
Qed.

Lemma reminders_routine routines :
  Forall (λ b, type b = routine) (reminder <$> routines).
Proof. apply list.Forall_forall. intros b (r & -> & _)%list_elem_of_fmap. done. Qed.

(** The routine blocks of a response are the reminders, whatever the
    task loop laid. *)
Lemma routine_blocks_of_response today req e tasks s st routines :
  while_loop today req e tasks (initial_state s) = Some st →
  filter (λ b, type b = routine)
    (sorted Z.ltb start (blocks_so_far st ++ (reminder <$> routines)))
  = sorted Z.ltb start (reminder <$> routines).
Proof.
  intros Hloop. rewrite sorted_by_start_filter, filter_app.
  rewrite PyFacts.filter_none, PyFacts.filter_all; [done| |].
  - apply reminders_routine.
  - eapply Forall_impl; [by eapply while_loop_no_routine|]. by intros b Hb.
Qed.

(** The task blocks of a response are those the loop laid. *)
Lemma task_blocks_of_response bs routines :
  task_blocks (sorted Z.ltb start (bs ++ (reminder <$> routines)))
  = sorted Z.ltb start (task_blocks bs).
Proof.
  unfold task_blocks. rewrite sorted_by_start_filter, filter_app.
  rewrite (PyFacts.filter_none _ (reminder <$> routines)).
  - by rewrite app_nil_r.
  - eapply Forall_impl; [apply reminders_routine|]. intros b ->. done.
Qed.



(** One task of 60 minutes in a two-hour window: no break, the counter
    being below 90. *)
Example single_task_no_break :
  generate_schedule 739925
    [ {| task_title := Some "A"; task_priority := Some 1;
         task_estimated_minutes := Val 60 |} ]
    []
    {| start_time := Some "09:00"; end_time := Some "11:00";
       break_every_minutes := 90; break_minutes := 10 |}
  = Some {| date_ := 739925;
            blocks := [ {| title := "A"; start := 540; end_ := 600;
                           type := task; priority := Some 1 |} ] |}.
Proof. reflexivity. Qed.

(** Two tasks of 60 minutes: the break comes after the second. *)
Example two_tasks_then_break :
  generate_schedule 739925
    [ {| task_title := Some "A"; task_priority := Some 1;
         task_estimated_minutes := Val 60 |};
      {| task_title := Some "B"; task_priority := Some 1;
         task_estimated_minutes := Val 60 |} ]
    []
    {| start_time := Some "09:00"; end_time := Some "12:00";
       break_every_minutes := 90; break_minutes := 10 |}
  = Some {| date_ := 739925;
            blocks := [ {| title := "A"; start := 540; end_ := 600;
                           type := task; priority := Some 1 |};
                        {| title := "B"; start := 600; end_ := 660;
                           type := task; priority := Some 1 |};
                        {| title := "Break"; start := 660; end_ := 670;
                           type := break; priority := None |} ] |}.
Proof. reflexivity. Qed.

(** A break that does not fit is dropped and the counter starts again:
    after the 90 minutes of A no break fits before 10:35, B follows at
    once, and its 30 minutes alone do not call for a break. *)
Example dropped_break_resets_counter :
  generate_schedule 739925
    [ {| task_title := Some "A"; task_priority := Some 1;
         task_estimated_minutes := Val 90 |};
      {| task_title := Some "B"; task_priority := Some 2;
         task_estimated_minutes := Absent |} ]
    []
    {| start_time := Some "09:00"; end_time := Some "11:00";
       break_every_minutes := 90; break_minutes := 45 |}
  = Some {| date_ := 739925;
            blocks := [ {| title := "A"; start := 540; end_ := 630;
                           type := task; priority := Some 1 |};
                        {| title := "B"; start := 630; end_ := 660;
                           type := task; priority := Some 2 |} ] |}.
Proof. reflexivity. Qed.

(** A break length that leads past the last day of the calendar makes the
    addition raise, and the request fails. *)
Example break_beyond_calendar_fails :
  generate_schedule 739925
    [ {| task_title := Some "A"; task_priority := Some 1;
         task_estimated_minutes := Val 90 |} ]
    []
    {| start_time := Some "09:00"; end_time := Some "12:00";
       break_every_minutes := 90; break_minutes := 10000000000 |}
  = None.
Proof. reflexivity. Qed.

(** The second task does not fit, and the third, which would, is not
    tried. *)
Example later_task_not_backfilled :
  generate_schedule 739925
    [ {| task_title := Some "C"; task_priority := Some 3;
         task_estimated_minutes := Val 30 |};
      {| task_title := Some "B"; task_priority := Some 2;
         task_estimated_minutes := Val 90 |};
      {| task_title := Some "A"; task_priority := Some 1;
         task_estimated_minutes := Val 60 |} ]
    []
    {| start_time := Some "09:00"; end_time := Some "11:00";
       break_every_minutes := 90; break_minutes := 10 |}
  = Some {| date_ := 739925;
            blocks := [ {| title := "A"; start := 540; end_ := 600;
                           type := task; priority := Some 1 |} ] |}.
Proof. reflexivity. Qed.

(** C4. Every routine gives exactly one reminder block: 15 minutes long,
    titled "Routine: " followed by the name ("Routine" when the name is
    absent), anchored at 09:00, 13:00 or 18:00 when the lower-cased
    preferred_time is morning, afternoon or evening and at 10:00 for
    anything else, absent and null included. The routine blocks of a
    response are these reminders, whatever the window of the request. *)
Theorem routine_reminders today tasks routines req :
  valid_date today →
  routine_blocks today routines = Some (reminder <$> routines)
  ∧ (∀ resp, generate_schedule today tasks routines req = Some resp →
       filter (λ b, type b = routine) (blocks resp)
         = sorted Z.ltb start (reminder <$> routines)
       ∧ length (filter (λ b, type b = routine) (blocks resp)) = length routines
       ∧ ∀ r, r ∈ routines → reminder r ∈ blocks resp)
  ∧ (∀ r,
       title (reminder r) = "Routine: " +:+ default "Routine" (routine_name r)
       ∧ end_ (reminder r) = start (reminder r) + 15
       ∧ type (reminder r) = routine
       ∧ start (reminder r) = anchor (routine_preferred_time r))
  ∧ (∀ p, lower p = "morning" → anchor (Val p) = 9 * 60)
  ∧ (∀ p, lower p = "afternoon" → anchor (Val p) = 13 * 60)
  ∧ (∀ p, lower p = "evening" → anchor (Val p) = 18 * 60)
  ∧ (∀ p, lower p ≠ "morning" → lower p ≠ "afternoon" → lower p ≠ "evening" →
       anchor (Val p) = 10 * 60)
  ∧ anchor Absent = 10 * 60
  ∧ anchor Null = 10 * 60
  ∧ anchor (Val "Evening") = 18 * 60
  ∧ anchor (Val "night") = 10 * 60.
Proof.
  intros Htoday. split; [by apply routine_blocks_reminders|]. split.
  - intros resp (s & e & rb & st & Hs & He & Hrb & Hloop & ->)%generate_schedule_Some.
    rewrite routine_blocks_reminders in Hrb by done. injection Hrb as <-.
    simpl. rewrite (routine_blocks_of_response _ _ _ _ _ _ _ Hloop).
    split; [done|]. split.
    + by rewrite PyFacts.sorted_length, length_fmap.
    + intros r Hr. rewrite (PyFacts.sorted_Permutation Z.ltb start).
      apply elem_of_app. right. by apply list_elem_of_fmap_2.
  - split; [done|]. unfold anchor.
    split; [by intros p ->|]. split; [by intros p ->|].
    split; [by intros p ->|]. split; [|done].
    intros p H1 H2 H3. by rewrite !decide_False.
Qed.

Lemma routine_reminders_witness :
  valid_date 739925
  ∧ routine_blocks 739925
      [ {| routine_name := Some "Stretch";
           routine_preferred_time := Val "Evening" |};
        {| routine_name := None; routine_preferred_time := Val "night" |} ]
    = Some [ {| title := "Routine: Stretch"; start := 18 * 60;
                end_ := 18 * 60 + 15; type := routine; priority := None |};
             {| title := "Routine: Routine"; start := 10 * 60;
                end_ := 10 * 60 + 15; type := routine; priority := None |} ].
Proof.
  assert (valid_date 739925) as Htoday by (by vm_compute).
  split; [exact Htoday|].
  exact (proj1 (routine_reminders 739925 [] _ default_request Htoday)).
Defined.

(** A morning-only window does not clip the evening reminder. *)
Example evening_reminder_outside_window :
  generate_schedule 739925 []
    [ {| routine_name := Some "Stretch";
         routine_preferred_time := Val "Evening" |} ]
    {| start_time := Some "09:00"; end_time := Some "10:00";
       break_every_minutes := 90; break_minutes := 10 |}
  = Some {| date_ := 739925;
            blocks := [ {| title := "Routine: Stretch"; start := 1080;
                           end_ := 1095; type := routine;
                           priority := None |} ] |}.
Proof. reflexivity. Qed.

(** C5. The blocks of the response are the task and break blocks of the
    loop with the routine reminders appended, sorted in ascending order
    of start instant; blocks with the same start keep the order they had
    in that list. *)
Theorem response_blocks_sorted_stable today tasks routines req resp :
  generate_schedule today tasks routines req = Some resp →
  ∃ s e st rb,
    parse_hhmm (or_str (start_time req) "09:00") = Some s
    ∧ parse_hhmm (or_str (end_time req) "18:00") = Some e
    ∧ while_loop today req e (tasks_sorted tasks) (initial_state s) = Some st
    ∧ routine_blocks today routines = Some rb
    ∧ blocks resp ≡ₚ blocks_so_far st ++ rb
    ∧ StronglySorted (λ a b, start a ≤ start b) (blocks resp)
    ∧ ∀ k, filter (λ b, start b = k) (blocks resp)
           = filter (λ b, start b = k) (blocks_so_far st ++ rb).
Proof.
  intros (s & e & rb & st & Hs & He & Hrb & Hloop & ->)%generate_schedule_Some.
  exists s, e, st, rb. simpl. repeat (split; [done|]).
  split; [apply PyFacts.sorted_Permutation|].
  split; [apply sorted_by_start_StronglySorted|].
  intros k. apply PyFacts.sorted_filter_tied.
  intros a b -> Hb. lia.
Qed.

Lemma response_blocks_sorted_stable_witness :
  let tasks :=
    [ {| task_title := Some "A"; task_priority := Some 1;
         task_estimated_minutes := Val 60 |};
      {| task_title := Some "B"; task_priority := Some 1;
         task_estimated_minutes := Val 60 |} ] in
  let routines :=
    [ {| routine_name := Some "Yoga"; routine_preferred_time := Val "Evening" |};
      {| routine_name := None; routine_preferred_time := Val "night" |} ] in
  let req := {| start_time := Some "09:00"; end_time := Some "12:00";
                break_every_minutes := 90; break_minutes := 10 |} in
  let resp :=
    {| date_ := 739925;
       blocks :=
         [ {| title := "A"; start := 540; end_ := 600; type := task;
              priority := Some 1 |};
           {| title := "B"; start := 600; end_ := 660; type := task;
              priority := Some 1 |};
           {| title := "Routine: Routine"; start := 600; end_ := 615;
              type := routine; priority := None |};
           {| title := "Break"; start := 660; end_ := 670; type := break;
              priority := None |};
           {| title := "Routine: Yoga"; start := 1080; end_ := 1095;
              type := routine; priority := None |} ] |} in
  generate_schedule 739925 tasks routines req = Some resp
  ∧ StronglySorted (λ a b, start a ≤ start b) (blocks resp).
Proof.
  intros tasks routines req resp.
  assert (generate_schedule 739925 tasks routines req = Some resp) as Hresp
    by reflexivity.
  split; [exact Hresp|].
  destruct (response_blocks_sorted_stable _ _ _ _ _ Hresp)
    as (s & e & st & rb & _ & _ & _ & _ & _ & Hsorted & _).
  exact Hsorted.
Defined.

(** *** The chain of task and break blocks *)

Lemma chain_app a bs1 b bs2 c :
  chain a bs1 b → chain b bs2 c → chain a (bs1 ++ bs2) c.
Proof.
  revert a. induction bs1 as [|x bs1 IH]; simpl; intros a.
  - by intros ->.
  - intros [Hx Hbs1] Hbs2. split; [done|]. by apply IH.
Qed.

(** The loop only ever lays a chain from the start instant to the
    cursor. *)
Lemma turn_chain req e t st st' s :
  turn req e t st st' →
  chain s (blocks_so_far st) (cursor st) →
  chain s (blocks_so_far st') (cursor st').
Proof.
  destruct 1; simpl; intros Hchain;
    repeat (eapply chain_app; [|simpl; split; reflexivity]); done.
Qed.

Lemma while_loop_chain today req e tasks s st :
  while_loop today req e tasks (initial_state s) = Some st →
  chain s (blocks_so_far st) (cursor st).
Proof.
  intros Hloop.
  eapply (while_loop_invariant
    (λ st, chain s (blocks_so_far st) (cursor st)));
    [|exact Hloop|done].
  intros t st1 st2 _ _ _. apply turn_chain.
Qed.

Lemma turn_lasting req e t st st' :
  0 < est_of t → 0 < break_minutes req →
  turn req e t st st' →
  Forall lasting (blocks_so_far st) → Forall lasting (blocks_so_far st').
Proof.
  intros Hest Hbreak. destruct 1; simpl; intros Hst;
    rewrite ?Forall_app; repeat split; try done;
    repeat constructor; unfold lasting; simpl; lia.
Qed.

Lemma turn_cursor_le req e t st st' :
  cursor st + est_of t ≤ e → turn req e t st st' → cursor st' ≤ e.
Proof. intros Hfit. destruct 1; simpl; lia. Qed.

Lemma while_loop_lasting today req e tasks s st :
  0 < break_minutes req → Forall (λ t, 0 < est_of t) tasks →
  while_loop today req e tasks (initial_state s) = Some st →
  Forall lasting (blocks_so_far st).
Proof.
  intros Hbreak Hest Hloop.
  eapply (while_loop_invariant (λ st, Forall lasting (blocks_so_far st)));
    [|exact Hloop|constructor].
  intros t st1 st2 Ht _ _. apply turn_lasting; [|done].
  rewrite list.Forall_forall in Hest. by apply Hest.
Qed.

Lemma while_loop_cursor_le today req e tasks s st :
  s ≤ e →
  while_loop today req e tasks (initial_state s) = Some st → cursor st ≤ e.
Proof.
  intros Hse Hloop.
  eapply (while_loop_invariant (λ st, cursor st ≤ e));
    [|exact Hloop|done].
  intros t st1 st2 _ _ Hfit Hturn _. by eapply turn_cursor_le.
Qed.

(** A chain of lasting blocks lies between its two ends, in ascending
    order. *)
Lemma chain_between a bs c :
  chain a bs c → Forall lasting bs →
  a ≤ c ∧ Forall (λ b, a ≤ start b ∧ end_ b ≤ c) bs.
Proof.
  revert a. induction bs as [|x bs IH]; simpl; intros a.
  - intros -> _. split; [lia|constructor].
  - intros [Hx Hbs] Hlast. inversion_clear Hlast as [|? ? Hxl Hbsl].
    destruct (IH _ Hbs Hbsl) as [Hle Hall]. unfold lasting in Hxl.
    split; [lia|]. constructor; [lia|].
    eapply Forall_impl; [exact Hall|]. simpl. intros b. lia.
Qed.

Lemma chain_StronglySorted a bs c :
  chain a bs c → Forall lasting bs →
  StronglySorted (λ x y, end_ x ≤ start y) bs.
Proof.
  revert a. induction bs as [|x bs IH]; simpl; intros a; [constructor|].
  intros [Hx Hbs] Hlast. inversion_clear Hlast as [|? ? Hxl Hbsl].
  constructor; [by eapply IH|].
  destruct (chain_between _ _ _ Hbs Hbsl) as [_ Hall].
  eapply Forall_impl; [exact Hall|]. simpl. intros b. lia.
Qed.

Lemma chain_adjacent a bs c i x y :
  chain a bs c → bs !! i = Some x → bs !! S i = Some y → start y = end_ x.
Proof.
  revert a i. induction bs as [|b bs IH]; intros a i; [done|].
  simpl. intros [Hb Hbs]. destruct i as [|i]; simpl.
  - intros [= <-]. destruct bs as [|b' bs]; [done|]. simpl.
    intros [= <-]. by destruct Hbs.
  - by apply (IH (end_ b)).
Qed.

Lemma StronglySorted_lookup {A} (R : relation A) l i j x y :
  StronglySorted R l → (i < j)%nat →
  l !! i = Some x → l !! j = Some y → R x y.
Proof.
  intros Hl. revert i j. induction Hl as [|a l Hl IH Ha]; intros i j; [done|].
  destruct j as [|j]; [lia|]. destruct i as [|i]; simpl.
  - intros _ [= <-] Hy. rewrite list.Forall_forall in Ha.
    apply Ha. by eapply list_elem_of_lookup_2.
  - intros Hij. apply IH. lia.
Qed.

(** With lasting blocks the sort leaves the chain of the loop as it is:
    the task and break blocks of the response are those of the loop, in
    the order they were laid. *)
Lemma task_break_blocks_of_response today req e tasks s st routines :
  0 < break_minutes req → Forall (λ t, 0 < est_of t) tasks →
  while_loop today req e tasks (initial_state s) = Some st →
  task_break_blocks
    (sorted Z.ltb start (blocks_so_far st ++ (reminder <$> routines)))
  = blocks_so_far st.
Proof.
  intros Hbreak Hest Hloop. unfold task_break_blocks.
  rewrite sorted_by_start_filter, filter_app.
  rewrite PyFacts.filter_all by (by eapply while_loop_no_routine).
  rewrite PyFacts.filter_none, app_nil_r.
  - apply (PyFacts.sorted_of_StronglySorted Z.ltb start).
    pose proof (while_loop_lasting _ _ _ _ _ _ Hbreak Hest Hloop) as Hlast.
    pose proof (chain_StronglySorted _ _ _ (while_loop_chain _ _ _ _ _ _ Hloop)
                  Hlast) as Hsorted.
    clear Hloop. induction Hsorted as [|x bs Hbs IH Hx]; constructor.
    + apply IH. by inversion Hlast.
    + inversion_clear Hlast as [|? ? Hxl _]. unfold lasting in Hxl.
      eapply Forall_impl; [exact Hx|]. intros y Hy.
      unfold key_le. simpl in Hy. lia.
  - eapply Forall_impl; [apply reminders_routine|]. intros b Hb Hn. done.
Qed.

(** C9, as amended. For every request with the start before the end, a
    positive break_minutes and tasks of positive estimated length, the
    task and break blocks of the response lie within the window and last
    (start ≤ block.start < block.end ≤ end), no two of them overlap, the
    first starts at the start instant and each next one exactly where the
    one before ended. *)
Theorem window_chain_of_lasting_blocks today tasks routines req s e resp :
  parse_hhmm (or_str (start_time req) "09:00") = Some s →
  parse_hhmm (or_str (end_time req) "18:00") = Some e →
  s < e →
  0 < break_minutes req →
  Forall (λ t, 0 < est_of t) tasks →
  generate_schedule today tasks routines req = Some resp →
  within_window s e (task_break_blocks (blocks resp))
  ∧ non_overlapping (task_break_blocks (blocks resp))
  ∧ chained s (task_break_blocks (blocks resp)).
Proof.
  intros Hs He Hse Hbreak Hest
    (s' & e' & rb & st & Hs' & He' & Hrb & Hloop & ->)%generate_schedule_Some.
  rewrite Hs in Hs'. rewrite He in He'.
  injection Hs' as <-. injection He' as <-.
  assert (Forall (λ t, 0 < est_of t) (tasks_sorted tasks)) as Hest'.
  { unfold tasks_sorted. by rewrite PyFacts.sorted_Permutation. }
  assert (rb = reminder <$> routines) as ->.
  { clear Hloop. unfold routine_blocks in Hrb. apply mapM_Some in Hrb.
    induction Hrb as [|r b routines rb Hr _ IH]; [done|]. simpl.
    rewrite IH. f_equal. unfold routine_block in Hr.
    rewrite routine_time_anchor in Hr.
    destruct (plus_minutes _ _ _) as [rt_end|] eqn:Hplus; [|done].
    apply plus_minutes_Some in Hplus as ->. simpl in Hr. by injection Hr as <-. }
  simpl. rewrite (task_break_blocks_of_response _ _ _ _ _ _ _ Hbreak Hest' Hloop).
  pose proof (while_loop_chain _ _ _ _ _ _ Hloop) as Hchain.
  pose proof (while_loop_lasting _ _ _ _ _ _ Hbreak Hest' Hloop) as Hlast.
  assert (s ≤ e) as Hse' by lia.
  pose proof (while_loop_cursor_le _ _ _ _ _ _ Hse' Hloop) as Hcur.
  split; [|split].
  - destruct (chain_between _ _ _ Hchain Hlast) as [_ Hall].
    unfold within_window. rewrite list.Forall_forall in Hall, Hlast.
    apply list.Forall_forall. intros b Hb.
    specialize (Hall b Hb). specialize (Hlast b Hb). unfold lasting in Hlast.
    lia.
  - intros i j a b Hij Ha Hb. left.
    by apply (StronglySorted_lookup _ _ i j a b
                (chain_StronglySorted _ _ _ Hchain Hlast)).
  - split.
    + intros b Hb. destruct (blocks_so_far st) as [|b' bs]; [done|].
      simpl in Hb. injection Hb as ->. by destruct Hchain.
    + intros i a b. by apply chain_adjacent with s (cursor st).
Qed.

Lemma window_chain_of_lasting_blocks_witness :
  let tasks :=
    [ {| task_title := Some "A"; task_priority := Some 1;
         task_estimated_minutes := Val 90 |};
      {| task_title := Some "B"; task_priority := Some 2;
         task_estimated_minutes := Null |} ] in
  let req := {| start_time := Some "09:00"; end_time := Some "12:00";
                break_every_minutes := 90; break_minutes := 10 |} in
  let resp :=
    {| date_ := 739925;
       blocks :=
         [ {| title := "A"; start := 540; end_ := 630; type := task;
              priority := Some 1 |};
           {| title := "Break"; start := 630; end_ := 640; type := break;
              priority := None |};
           {| title := "B"; start := 640; end_ := 670; type := task;
              priority := Some 2 |} ] |} in
  generate_schedule 739925 tasks [] req = Some resp
  ∧ within_window 540 720 (task_break_blocks (blocks resp))
  ∧ non_overlapping (task_break_blocks (blocks resp))
  ∧ chained 540 (task_break_blocks (blocks resp)).
Proof.
  intros tasks req resp.
  assert (generate_schedule 739925 tasks [] req = Some resp) as Hresp
    by reflexivity.
  split; [exact Hresp|].
  apply (window_chain_of_lasting_blocks 739925 tasks [] req 540 720 resp);
    [reflexivity|reflexivity|lia|simpl; lia| |exact Hresp].
  repeat constructor.
Defined.

(** C9 as stated fails: with break_minutes 0 the break after a 90-minute
    task is the block 10:30 to 10:30, which does not last. *)
Lemma window_chain_claim_fails_for_empty_break :
  ¬ window_chain_claim 739925
      [ {| task_title := Some "A"; task_priority := Some 1;
           task_estimated_minutes := Val 90 |} ]
      []
      {| start_time := Some "09:00"; end_time := Some "12:00";
         break_every_minutes := 90; break_minutes := 0 |}.
Proof.
  intros Hclaim.
  destruct (Hclaim 540 720
    {| date_ := 739925;
       blocks :=
         [ {| title := "A"; start := 540; end_ := 630; type := task;
              priority := Some 1 |};
           {| title := "Break"; start := 630; end_ := 630; type := break;
              priority := None |} ] |}
    eq_refl eq_refl ltac:(lia) eq_refl) as [Hwindow _].
  unfold within_window in Hwindow.
  rewrite list.Forall_forall in Hwindow.
  specialize (Hwindow
    {| title := "Break"; start := 630; end_ := 630; type := break;
       priority := None |}).
  simpl in Hwindow.
  assert (630 < 630) as Hlt; [|lia].
  apply Hwindow. unfold task_break_blocks. simpl.
  apply list_elem_of_filter. split; [done|]. right. left.
Qed.

(** With a negative break_minutes the cursor moves back and the second
    task overlaps the first. *)
Lemma window_chain_claim_fails_for_negative_break :
  ¬ window_chain_claim 739925
      [ {| task_title := Some "A"; task_priority := Some 1;
           task_estimated_minutes := Val 90 |};
        {| task_title := Some "B"; task_priority := Some 2;
           task_estimated_minutes := Val 60 |} ]
      []
      {| start_time := Some "09:00"; end_time := Some "12:00";
         break_every_minutes := 90; break_minutes := -30 |}.
Proof.
  intros Hclaim.
  destruct (Hclaim 540 720
    {| date_ := 739925;
       blocks :=
         [ {| title := "A"; start := 540; end_ := 630; type := task;
              priority := Some 1 |};
           {| title := "B"; start := 600; end_ := 660; type := task;
              priority := Some 2 |};
           {| title := "Break"; start := 630; end_ := 600; type := break;
              priority := None |} ] |}
    eq_refl eq_refl ltac:(lia) eq_refl) as (_ & Hover & _).
  specialize (Hover 0%nat 1%nat _ _ ltac:(lia) eq_refl eq_refl).
  simpl in Hover. lia.
Qed.

(** *** Reading the times of the request *)

Lemma parse_hhmm_parts s d :
  parse_hhmm s = Some d →
  ∃ hh mm, mapM int (split ":" s) = Some [hh; mm] ∧ dtime hh mm = Some d.
Proof.
  unfold parse_hhmm. intros H.
  destruct (mapM int (split ":" s)) as [parts|]; [|done]. simpl in H.
  destruct parts as [|hh [|mm [|? ?]]]; try done. by exists hh, mm.
Qed.

Lemma dtime_Some hh mm d :
  dtime hh mm = Some d ↔ (0 ≤ hh ≤ 23 ∧ 0 ≤ mm ≤ 59 ∧ d = hh * 60 + mm).
Proof.
  unfold dtime.
  destruct ((0 <=? hh) && (hh <=? 23) && (0 <=? mm) && (mm <=? 59)) eqn:E.
  - rewrite !andb_true_iff in E. split; [intros [= <-]; lia|].
    by intros (_ & _ & ->).
  - rewrite !andb_false_iff in E. split; [done|]. lia.
Qed.

Lemma parse_hhmm_range s d : parse_hhmm s = Some d → 0 ≤ d < 1440.
Proof.
  intros (hh & mm & _ & Hd)%parse_hhmm_parts.
  apply dtime_Some in Hd. lia.
Qed.

Lemma length_split sep s : length (split sep s) = S (count_char sep s).
Proof.
  induction s as [|c s IH]; simpl; [done|].
  destruct (Ascii.eqb c sep); simpl; [by rewrite IH|].
  destruct (split sep s) as [|w ws]; simpl in *; [done|]. by rewrite IH.
Qed.

(** X1. A time read by [parse_hhmm] is an instant of today: between 00:00
    and 23:59, in minutes from midnight. *)
Theorem parse_hhmm_within_today s d :
  parse_hhmm s = Some d → 0 ≤ d < 1440.
Proof.
  intros (hh & mm & _ & Hd)%parse_hhmm_parts.
  apply dtime_Some in Hd as (Hh & Hm & ->). lia.
Qed.

Lemma parse_hhmm_within_today_witness :
  parse_hhmm "23:59" = Some 1439 ∧ 0 ≤ 1439 < 1440.
Proof.
  assert (parse_hhmm "23:59" = Some 1439) as H by reflexivity.
  split; [exact H|]. exact (parse_hhmm_within_today "23:59" 1439 H).
Defined.

(** X2. [parse_hhmm] reads only strings with exactly one colon: without a
    colon, or with two or more, the parse fails; and a request whose
    start_time or end_time is such a string, other than the empty one that
    the default replaces, fails with it. *)
Theorem parse_hhmm_one_colon s :
  count_char ":" s ≠ 1%nat →
  parse_hhmm s = None
  ∧ (s ≠ EmptyString →
     ∀ today tasks routines req,
       start_time req = Some s ∨ end_time req = Some s →
       generate_schedule today tasks routines req = None).
Proof.
  intros Hcount.
  assert (parse_hhmm s = None) as Hparse.
  { destruct (parse_hhmm s) as [d|] eqn:Hparse; [|done].
    apply parse_hhmm_parts in Hparse as (hh & mm & Hparts & _).
    apply length_mapM in Hparts. rewrite length_split in Hparts.
    simpl in Hparts. lia. }
  split; [done|]. intros Hs today tasks routines req Hreq.
  assert (∀ dflt, or_str (Some s) dflt = s) as Hor
    by (intros dflt; by destruct s).
  unfold generate_schedule. destruct Hreq as [-> | ->]; rewrite Hor, Hparse.
  - done.
  - by destruct (parse_hhmm (or_str (start_time req) "09:00")).
Qed.

Lemma parse_hhmm_one_colon_witness :
  count_char ":" "09:00:00" ≠ 1%nat
  ∧ parse_hhmm "09:00:00" = None
  ∧ generate_schedule 739925 [] []
      {| start_time := Some "09:00"; end_time := Some "09:00:00";
         break_every_minutes := 90; break_minutes := 10 |} = None.
Proof.
  assert (count_char ":" "09:00:00" ≠ 1%nat) as H by (by vm_compute).
  split; [exact H|].
  destruct (parse_hhmm_one_colon "09:00:00" H) as [Hparse Hrequest].
  split; [exact Hparse|].
  apply Hrequest; [done|]. by right.
Defined.

(** The empty string has no colon either, but stands for the default. *)
Example empty_start_time_is_the_default :
  generate_schedule 739925 [] []
    {| start_time := Some ""; end_time := Some "";
       break_every_minutes := 90; break_minutes := 10 |}
  = Some {| date_ := 739925; blocks := [] |}.
Proof. reflexivity. Qed.

Lemma parse_hhmm_hhmm_all :
  forallb (λ h, forallb (λ m,
      bool_decide (parse_hhmm (hhmm h m) = Some (h * 60 + m)))
    (seqZ 0 60)) (seqZ 0 24) = true.
Proof. by vm_compute. Qed.

(** X3. Writing an hour and a minute as [HH:MM] and reading the string
    back gives the instant [HH * 60 + MM]: every time of day from 00:00 to
    23:59 is accepted in this form. *)
Theorem parse_hhmm_of_hhmm h m :
  0 ≤ h ≤ 23 → 0 ≤ m ≤ 59 → parse_hhmm (hhmm h m) = Some (h * 60 + m).
Proof.
  intros Hh Hm. pose proof parse_hhmm_hhmm_all as Hall.
  rewrite forallb_forall in Hall.
  specialize (Hall h). rewrite <- list_elem_of_In, elem_of_seqZ in Hall.
  specialize (Hall ltac:(lia)). rewrite forallb_forall in Hall.
  specialize (Hall m). rewrite <- list_elem_of_In, elem_of_seqZ in Hall.
  specialize (Hall ltac:(lia)). by apply bool_decide_eq_true in Hall.
Qed.

Lemma parse_hhmm_of_hhmm_witness :
  parse_hhmm (hhmm 7 5) = Some (7 * 60 + 5).
Proof. apply parse_hhmm_of_hhmm; lia. Defined.

(** *** When the endpoint answers *)

(** Nothing overflows from today to tomorrow, unless today is the last
    day of the calendar. *)
Lemma plus_minutes_two_days today d n :
  valid_date today → today < MAXORDINAL → 0 ≤ n ≤ 1440 → 0 ≤ d + n < 2880 →
  plus_minutes today d n = Some (d + n).
Proof.
  intros [Hlo Hhi] Hlast Hn Hdn. unfold plus_minutes, timedelta, add.
  assert (0 ≤ n / 1440 ≤ 1) as Hdays.
  { split; [apply Z.div_pos; lia|]. apply Z.div_le_upper_bound; lia. }
  destruct ((-999999999 <=? n / 1440) && (n / 1440 <=? 999999999)) eqn:E;
    [|rewrite andb_false_iff in E; lia].
  simpl. unfold representable, toordinal, MAXORDINAL in *.
  assert (0 ≤ (d + n) / 1440 < 2) as Hday.
  { split; [apply Z.div_pos; lia|]. apply Z.div_lt_upper_bound; lia. }
  destruct ((1 <=? today + (d + n) / 1440)
            && (today + (d + n) / 1440 <=? 3652059)) eqn:E';
    [done|rewrite andb_false_iff in E'; lia].
Qed.

Lemma while_loop_Some today req e tasks st :
  valid_date today → today < MAXORDINAL → e < 1440 →
  0 ≤ break_minutes req ≤ 1440 →
  Forall (λ t, 0 ≤ est_of t ≤ 1440) tasks →
  0 ≤ cursor st →
  ∃ st', while_loop today req e tasks st = Some st'.
Proof.
  intros Htoday Hlast He Hbreak Hest. revert st.
  induction Hest as [|t tasks Ht Hest IH]; intros st Hcur; simpl; [by eexists|].
  destruct (cursor st <? e) eqn:Hnow; [|by eexists].
  unfold loop_body, take_break.
  rewrite plus_minutes_two_days by (done || lia). simpl.
  destruct (e <? cursor st + est_of t) eqn:Hfit; simpl; [by eexists|].
  destruct (break_every_minutes req <=? minutes_since_break st + est_of t);
    simpl; [|apply IH; simpl; lia].
  rewrite plus_minutes_two_days by (done || lia). simpl.
  destruct (cursor st + est_of t + break_minutes req <=? e); simpl;
    apply IH; simpl; lia.
Qed.

(** X4. The endpoint answers, and with today's date, whenever both times
    are well-formed, break_minutes is between 0 and a day, every task
    takes between 0 minutes and a day, and today is not the last day of
    the calendar: no date arithmetic of the loop can then overflow. *)
Theorem schedule_answers today tasks routines req s e :
  valid_date today → today < MAXORDINAL →
  parse_hhmm (or_str (start_time req) "09:00") = Some s →
  parse_hhmm (or_str (end_time req) "18:00") = Some e →
  0 ≤ break_minutes req ≤ 1440 →
  Forall (λ t, 0 ≤ est_of t ≤ 1440) tasks →
  ∃ resp, generate_schedule today tasks routines req = Some resp
          ∧ date_ resp = today.
Proof.
  intros Htoday Hlast Hs He Hbreak Hest.
  pose proof (parse_hhmm_range _ _ Hs) as Hs'.
  pose proof (parse_hhmm_range _ _ He) as He'.
  assert (Forall (λ t, 0 ≤ est_of t ≤ 1440) (tasks_sorted tasks)) as Hest'.
  { unfold tasks_sorted. by rewrite PyFacts.sorted_Permutation. }
  destruct (while_loop_Some today req e (tasks_sorted tasks) (initial_state s))
    as [st Hloop]; try done; [lia|simpl; lia|].
  exists {| date_ := today;
            blocks := sorted Z.ltb start
                        (blocks_so_far st ++ (reminder <$> routines)) |}.
  split; [|reflexivity].
  apply generate_schedule_Some.
  exists s, e, (reminder <$> routines), st.
  split; [done|]. split; [done|].
  split; [by apply routine_blocks_reminders|]. by split.
Qed.

Lemma schedule_answers_witness :
  ∃ resp,
    generate_schedule 739925
      [ {| task_title := Some "A"; task_priority := Some 1;
           task_estimated_minutes := Val 600 |};
        {| task_title := None; task_priority := None;
           task_estimated_minutes := Null |} ]
      [ {| routine_name := Some "Walk"; routine_preferred_time := Absent |} ]
      {| start_time := None; end_time := Some "23:59";
         break_every_minutes := 0; break_minutes := 1440 |} = Some resp
    ∧ date_ resp = 739925.
Proof.
  apply (schedule_answers 739925 _ _ _ 540 1439);
    [by vm_compute|by vm_compute|reflexivity|reflexivity|simpl; lia|].
  repeat constructor; by vm_compute.
Defined.

(** X5. Without task documents the response holds the routine reminders
    alone, sorted by start; without routine documents either, its block
    list is empty. *)
Theorem no_tasks_only_reminders today routines req s e :
  valid_date today →
  parse_hhmm (or_str (start_time req) "09:00") = Some s →
  parse_hhmm (or_str (end_time req) "18:00") = Some e →
  generate_schedule today [] routines req =
    Some {| date_ := today;
            blocks := sorted Z.ltb start (reminder <$> routines) |}
  ∧ generate_schedule today [] [] req = Some {| date_ := today; blocks := [] |}.
Proof.
  intros Htoday Hs He. split; apply generate_schedule_Some.
  - exists s, e, (reminder <$> routines), (initial_state s).
    split; [done|]. split; [done|].
    split; [by apply routine_blocks_reminders|]. by split.
  - exists s, e, [], (initial_state s). by repeat split.
Qed.

Lemma no_tasks_only_reminders_witness :
  generate_schedule 739925 []
    [ {| routine_name := Some "Walk"; routine_preferred_time := Val "afternoon" |};
      {| routine_name := Some "Read"; routine_preferred_time := Val "Morning" |} ]
    default_request =
    Some {| date_ := 739925;
            blocks :=
              [ {| title := "Routine: Read"; start := 540; end_ := 555;
                   type := routine; priority := None |};
                {| title := "Routine: Walk"; start := 780; end_ := 795;
                   type := routine; priority := None |} ] |}.
Proof.
  refine (proj1 (no_tasks_only_reminders 739925 _ default_request 540 1080
                   _ _ _)); by vm_compute.
Defined.

(** X6. When no two task documents have the same sort key, the response
    does not depend on the order in which the documents were fetched. *)
Theorem schedule_independent_of_fetch_order today tasks tasks' routines req :
  tasks ≡ₚ tasks' →
  NoDup (task_sort_key <$> tasks) →
  generate_schedule today tasks routines req
  = generate_schedule today tasks' routines req.
Proof.
  intros Hperm Hkeys. unfold generate_schedule, tasks_sorted.
  by rewrite (PyFacts.sorted_Permutation_eq tuple_ltb task_sort_key
                PyFacts.tuple_ltb_asym PyFacts.tuple_ltb_le_trans
                PyFacts.tuple_ltb_total tasks tasks' Hperm Hkeys).
Qed.

Lemma schedule_independent_of_fetch_order_witness :
  let a := {| task_title := Some "A"; task_priority := Some 1;
              task_estimated_minutes := Val 60 |} in
  let b := {| task_title := Some "B"; task_priority := Some 1;
              task_estimated_minutes := Val 45 |} in
  let c := {| task_title := Some "C"; task_priority := None;
              task_estimated_minutes := Absent |} in
  generate_schedule 739925 [a; b; c] [] default_request
  = generate_schedule 739925 [c; a; b] [] default_request.
Proof.
  intros a b c.
  apply (schedule_independent_of_fetch_order 739925 [a; b; c] [c; a; b]).
  - change [c; a; b] with ([c] ++ [a; b]). change [a; b; c] with ([a; b] ++ [c]).
    apply Permutation_app_comm.
  - apply (bool_decide_unpack _). by vm_compute.
Defined.

(** *** What every response is made of *)

(** Whenever the reminders are built at all, they are the ones of the
    specification. *)
Lemma routine_blocks_Some today routines rb :
  routine_blocks today routines = Some rb → rb = reminder <$> routines.
Proof.
  unfold routine_blocks. intros Hrb%mapM_Some.
  induction Hrb as [|r b routines rb Hr _ IH]; [done|]. simpl.
  rewrite IH. f_equal. unfold routine_block in Hr.
  rewrite routine_time_anchor in Hr.
  destruct (plus_minutes _ _ _) as [rt_end|] eqn:Hplus; [|done].
  apply plus_minutes_Some in Hplus as ->. simpl in Hr. by injection Hr as <-.
Qed.

(** The task and break blocks of a response are those the loop laid,
    maybe in another order. *)
Lemma task_break_blocks_Permutation today req e tasks s st routines :
  while_loop today req e tasks (initial_state s) = Some st →
  task_break_blocks
    (sorted Z.ltb start (blocks_so_far st ++ (reminder <$> routines)))
  ≡ₚ blocks_so_far st.
Proof.
  intros Hloop. unfold task_break_blocks.
  rewrite (PyFacts.sorted_Permutation Z.ltb start), filter_app.
  rewrite PyFacts.filter_all by (by eapply while_loop_no_routine).
  rewrite PyFacts.filter_none, app_nil_r; [done|].
  eapply Forall_impl; [apply reminders_routine|]. intros b Hb Hn. done.
Qed.

Lemma total_minutes_app bs1 bs2 :
  total_minutes (bs1 ++ bs2) = total_minutes bs1 + total_minutes bs2.
Proof. induction bs1 as [|b bs1 IH]; simpl; [done|]. rewrite IH. lia. Qed.

Lemma total_minutes_Permutation bs1 bs2 :
  bs1 ≡ₚ bs2 → total_minutes bs1 = total_minutes bs2.
Proof. induction 1; simpl; lia. Qed.

(** The blocks of a chain take the time between its two ends. *)
Lemma chain_total_minutes a bs c : chain a bs c → total_minutes bs = c - a.
Proof.
  revert a. induction bs as [|b bs IH]; simpl; intros a.
  - intros ->. lia.
  - intros [Hb Hbs]. rewrite (IH _ Hbs). lia.
Qed.

(** X7. The task and break blocks of a response take together no more
    time than the window has, whatever the lengths in the request and in
    the documents, as long as the window does not end before it starts. *)
Theorem scheduled_time_fits_window today tasks routines req s e resp :
  parse_hhmm (or_str (start_time req) "09:00") = Some s →
  parse_hhmm (or_str (end_time req) "18:00") = Some e →
  s ≤ e →
  generate_schedule today tasks routines req = Some resp →
  total_minutes (task_break_blocks (blocks resp)) ≤ e - s.
Proof.
  intros Hs He Hse
    (s' & e' & rb & st & Hs' & He' & Hrb & Hloop & ->)%generate_schedule_Some.
  rewrite Hs in Hs'. rewrite He in He'.
  injection Hs' as <-. injection He' as <-.
  apply routine_blocks_Some in Hrb as ->. simpl.
  rewrite (total_minutes_Permutation _ _
             (task_break_blocks_Permutation _ _ _ _ _ _ _ Hloop)).
  rewrite (chain_total_minutes _ _ _ (while_loop_chain _ _ _ _ _ _ Hloop)).
  pose proof (while_loop_cursor_le _ _ _ _ _ _ Hse Hloop). lia.
Qed.

Lemma scheduled_time_fits_window_witness :
  let tasks :=
    [ {| task_title := Some "A"; task_priority := Some 1;
         task_estimated_minutes := Val 90 |};
      {| task_title := Some "B"; task_priority := Some 2;
         task_estimated_minutes := Val 60 |} ] in
  let req := {| start_time := Some "09:00"; end_time := Some "12:00";
                break_every_minutes := 90; break_minutes := -30 |} in
  ∃ resp, generate_schedule 739925 tasks [] req = Some resp
          ∧ total_minutes (task_break_blocks (blocks resp)) ≤ 720 - 540.
Proof.
  intros tasks req. eexists. split; [reflexivity|].
  apply (scheduled_time_fits_window 739925 tasks [] req 540 720);
    [reflexivity|reflexivity|lia|reflexivity].
Defined.

Lemma task_groups_app bs1 bs2 :
  task_groups bs1 → task_groups bs2 → task_groups (bs1 ++ bs2).
Proof.
  induction 1 as [|a bs Ha Hbs IH|a b bs Ha Hb Hstart Hbs IH]; simpl;
    intros Hbs2; [done| |].
  - apply task_groups_task; auto.
  - apply task_groups_task_break; auto.
Qed.

Lemma turn_task_groups req e t st st' :
  turn req e t st st' →
  task_groups (blocks_so_far st) → task_groups (blocks_so_far st').
Proof.
  destruct 1; simpl; intros Hst.
  - apply task_groups_app; [done|]. by repeat constructor.
  - rewrite <- app_assoc. apply task_groups_app; [done|]. simpl.
    by apply task_groups_task_break; [..|constructor].
  - apply task_groups_app; [done|]. by repeat constructor.
Qed.

Lemma while_loop_task_groups today req e tasks s st :
  while_loop today req e tasks (initial_state s) = Some st →
  task_groups (blocks_so_far st).
Proof.
  intros Hloop.
  eapply (while_loop_invariant (λ st, task_groups (blocks_so_far st)));
    [|exact Hloop|constructor].
  intros t st1 st2 _ _ _. apply turn_task_groups.
Qed.

Lemma task_groups_break_lookup bs i b :
  task_groups bs → bs !! i = Some b → type b = break →
  ∃ j a, i = S j ∧ bs !! j = Some a ∧ type a = task ∧ end_ a = start b.
Proof.
  intros Hbs. revert i.
  induction Hbs as [|a bs Ha Hbs IH|a b' bs Ha Hb' Hstart Hbs IH]; intros i.
  - done.
  - destruct i as [|i]; simpl.
    + intros [= <-] Hb. congruence.
    + intros Hi Hb. destruct (IH i Hi Hb) as (j & a' & -> & Hj & Ha' & Hend).
      exists (S j), a'. by repeat split.
  - destruct i as [|[|i]]; simpl.
    + intros [= <-] Hb. congruence.
    + intros [= <-] _. exists 0%nat, a. by repeat split.
    + intros Hi Hb. destruct (IH i Hi Hb) as (j & a' & -> & Hj & Ha' & Hend).
      exists (S (S j)), a'. by repeat split.
Qed.

(** X8. With a positive break_minutes and tasks of positive length, the
    task and break blocks of a response come in groups of a task alone or
    a task with its break: every break block stands right after a task
    block and starts where that task ends, so the list never starts with a
    break and never has two breaks in a row. *)
Theorem breaks_follow_tasks today tasks routines req resp :
  0 < break_minutes req →
  Forall (λ t, 0 < est_of t) tasks →
  generate_schedule today tasks routines req = Some resp →
  task_groups (task_break_blocks (blocks resp))
  ∧ ∀ i b, task_break_blocks (blocks resp) !! i = Some b → type b = break →
      ∃ j a, i = S j ∧ task_break_blocks (blocks resp) !! j = Some a
             ∧ type a = task ∧ end_ a = start b.
Proof.
  intros Hbreak Hest
    (s & e & rb & st & Hs & He & Hrb & Hloop & ->)%generate_schedule_Some.
  apply routine_blocks_Some in Hrb as ->. simpl.
  assert (Forall (λ t, 0 < est_of t) (tasks_sorted tasks)) as Hest'.
  { unfold tasks_sorted. by rewrite PyFacts.sorted_Permutation. }
  rewrite (task_break_blocks_of_response _ _ _ _ _ _ _ Hbreak Hest' Hloop).
  pose proof (while_loop_task_groups _ _ _ _ _ _ Hloop) as Hgroups.
  split; [done|]. intros i b. by apply task_groups_break_lookup.
Qed.

Lemma breaks_follow_tasks_witness :
  let tasks :=
    [ {| task_title := Some "A"; task_priority := Some 1;
         task_estimated_minutes := Val 90 |};
      {| task_title := Some "B"; task_priority := Some 2;
         task_estimated_minutes := Val 100 |} ] in
  ∃ resp, generate_schedule 739925 tasks [] default_request = Some resp
          ∧ task_groups (task_break_blocks (blocks resp)).
Proof.
  intros tasks. eexists. split; [reflexivity|].
  refine (proj1 (breaks_follow_tasks 739925 tasks [] default_request _
                   _ _ eq_refl)); [simpl; lia|].
  repeat constructor.
Defined.

Lemma turn_block_of req ts e t st st' :
  t ∈ ts → turn req e t st st' →
  Forall (block_of req ts) (blocks_so_far st) →
  Forall (block_of req ts) (blocks_so_far st').
Proof.
  intros Ht. destruct 1; simpl; intros Hst; rewrite ?Forall_app;
    repeat split; try done; repeat constructor; unfold block_of; simpl;
    try done; by exists t.
Qed.

Lemma while_loop_block_of today req e ts s st :
  while_loop today req e ts (initial_state s) = Some st →
  Forall (block_of req ts) (blocks_so_far st).
Proof.
  intros Hloop.
  eapply (while_loop_invariant
    (λ st, Forall (block_of req ts) (blocks_so_far st)));
    [|exact Hloop|constructor].
  intros t st1 st2 Ht _ _. by apply turn_block_of.
Qed.

(** X9. Every block of a response is of one of three makes. A task block
    carries the title of one of the fetched tasks ("Task" if it has
    none), its priority (3 if it has none) and lasts its estimated
    minutes (30 if absent, null or 0). A break block is titled "Break",
    lasts break_minutes and has no priority. A routine block lasts 15
    minutes and has no priority. *)
Theorem response_blocks_by_type today tasks routines req resp :
  generate_schedule today tasks routines req = Some resp →
  Forall (λ b,
    match type b with
    | task =>
        ∃ t, t ∈ tasks
             ∧ title b = default "Task" (task_title t)
             ∧ priority b = Some (default 3 (task_priority t))
             ∧ end_ b = start b + or_int (get (task_estimated_minutes t) 30) 30
    | break =>
        title b = "Break" ∧ priority b = None
        ∧ end_ b = start b + break_minutes req
    | routine => priority b = None ∧ end_ b = start b + 15
    end) (blocks resp).
Proof.
  intros (s & e & rb & st & Hs & He & Hrb & Hloop & ->)%generate_schedule_Some.
  apply routine_blocks_Some in Hrb as ->. simpl.
  rewrite (PyFacts.sorted_Permutation Z.ltb start). apply Forall_app. split.
  - eapply Forall_impl; [exact (while_loop_block_of _ _ _ _ _ _ Hloop)|].
    intros b Hb. unfold block_of in Hb. destruct (type b).
    + destruct Hb as (t & Ht & Hb). exists t. split.
      * unfold tasks_sorted in Ht.
        by rewrite (PyFacts.sorted_Permutation tuple_ltb task_sort_key) in Ht.
      * pose proof (f_equal title Hb) as Htitle.
        pose proof (f_equal priority Hb) as Hpriority.
        pose proof (f_equal end_ Hb) as Hend. by simpl in *.
    + pose proof (f_equal title Hb) as Htitle.
      pose proof (f_equal priority Hb) as Hpriority.
      pose proof (f_equal end_ Hb) as Hend. by simpl in *.
    + by destruct Hb.
  - apply list.Forall_forall. intros b (r & -> & _)%list_elem_of_fmap. done.
Qed.

Lemma response_blocks_by_type_witness :
  let tasks := [ {| task_title := None; task_priority := None;
                    task_estimated_minutes := Val 0 |} ] in
  let routines := [ {| routine_name := None; routine_preferred_time := Null |} ] in
  let req := {| start_time := Some ""; end_time := None;
                break_every_minutes := 30; break_minutes := 5 |} in
  ∃ resp,
    generate_schedule 739925 tasks routines req = Some resp
    ∧ Forall (λ b, type b = break → end_ b = start b + 5) (blocks resp).
Proof.
  intros tasks routines req. eexists. split; [reflexivity|].
  eapply Forall_impl;
    [apply (response_blocks_by_type 739925 tasks routines req); reflexivity|].
  intros b Hb Hbreak. simpl in Hb. rewrite Hbreak in Hb.
  by destruct Hb as (_ & _ & ->).
Defined.

Lemma turn_length req e t st st' :
  turn req e t st st' →
  (length (blocks_so_far st') ≤ length (blocks_so_far st) + 2)%nat.
Proof. destruct 1; simpl; rewrite !length_app; simpl; lia. Qed.

Lemma while_loop_length today req e tasks st st' :
  while_loop today req e tasks st = Some st' →
  (length (blocks_so_far st')
   ≤ length (blocks_so_far st) + 2 * length tasks)%nat.
Proof.
  revert st. induction tasks as [|t tasks IH]; simpl; intros st.
  - intros [= <-]. lia.
  - destruct (cursor st <? e); [|intros [= <-]; lia].
    destruct (loop_body today req e t st) as [[st1|]|] eqn:Hbody; simpl;
      [|intros [= <-]; lia|done].
    apply loop_body_Continue in Hbody as [_ Hturn%turn_length].
    intros Hloop%IH. lia.
Qed.

(** X10. A response has at most two blocks for each task document, a task
    and its break, and one for each routine document; of the task blocks
    there are no more than task documents. *)
Theorem response_size today tasks routines req resp :
  generate_schedule today tasks routines req = Some resp →
  (length (blocks resp) ≤ 2 * length tasks + length routines)%nat
  ∧ (length (task_blocks (blocks resp)) ≤ length tasks)%nat
  ∧ length (filter (λ b, type b = routine) (blocks resp)) = length routines.
Proof.
  intros (s & e & rb & st & Hs & He & Hrb & Hloop & ->)%generate_schedule_Some.
  apply routine_blocks_Some in Hrb as ->. simpl.
  split; [|split].
  - rewrite PyFacts.sorted_length, length_app, length_fmap.
    pose proof (while_loop_length _ _ _ _ _ _ Hloop) as Hlen. simpl in Hlen.
    unfold tasks_sorted in Hlen. rewrite PyFacts.sorted_length in Hlen. lia.
  - rewrite task_blocks_of_response, PyFacts.sorted_length.
    destruct (while_loop_prefix _ _ _ _ _ _ Hloop) as (n & Hn & _).
    simpl in Hn. apply (f_equal length) in Hn.
    rewrite !length_fmap, length_take in Hn.
    unfold tasks_sorted in Hn. rewrite PyFacts.sorted_length in Hn. lia.
  - rewrite (routine_blocks_of_response _ _ _ _ _ _ _ Hloop).
    by rewrite PyFacts.sorted_length, length_fmap.
Qed.

Lemma response_size_witness :
  let tasks :=
    [ {| task_title := Some "A"; task_priority := Some 1;
         task_estimated_minutes := Val 90 |};
      {| task_title := Some "B"; task_priority := Some 2;
         task_estimated_minutes := Val 600 |} ] in
  let routines :=
    [ {| routine_name := Some "Walk"; routine_preferred_time := Absent |} ] in
  ∃ resp,
    generate_schedule 739925 tasks routines default_request = Some resp
    ∧ (length (blocks resp) ≤ 2 * 2 + 1)%nat.
Proof.
  intros tasks routines. eexists. split; [reflexivity|].
  refine (proj1 (response_size 739925 tasks routines default_request _ _)).
  reflexivity.
Defined.

(** *** The end of the window and the default request *)

Lemma turn_before_end req e t st st' :
  cursor st < e → cursor st + est_of t ≤ e → turn req e t st st' →
  Forall (λ b, start b ≤ e ∧ end_ b ≤ e) (blocks_so_far st) →
  Forall (λ b, start b ≤ e ∧ end_ b ≤ e) (blocks_so_far st').
Proof.
  intros Hcur Hfit. destruct 1; simpl; intros Hst; rewrite ?Forall_app;
    repeat split; try done; repeat constructor; simpl; lia.
Qed.

Lemma while_loop_before_end today req e tasks s st :
  while_loop today req e tasks (initial_state s) = Some st →
  Forall (λ b, start b ≤ e ∧ end_ b ≤ e) (blocks_so_far st).
Proof.
  intros Hloop.
  eapply (while_loop_invariant
    (λ st, Forall (λ b, start b ≤ e ∧ end_ b ≤ e) (blocks_so_far st)));
    [|exact Hloop|constructor].
  intros t st1 st2 _. apply turn_before_end.
Qed.

(** X24. Whatever the lengths in the request and in the documents, zero
    and negative ones included, no task or break block of a response
    starts or ends after the end instant. *)
Theorem nothing_laid_past_the_end today tasks routines req e resp :
  parse_hhmm (or_str (end_time req) "18:00") = Some e →
  generate_schedule today tasks routines req = Some resp →
  Forall (λ b, start b ≤ e ∧ end_ b ≤ e) (task_break_blocks (blocks resp)).
Proof.
  intros He
    (s & e' & rb & st & Hs & He' & Hrb & Hloop & ->)%generate_schedule_Some.
  rewrite He in He'. injection He' as <-.
  apply routine_blocks_Some in Hrb as ->. simpl.
  rewrite (task_break_blocks_Permutation _ _ _ _ _ _ _ Hloop).
  by eapply while_loop_before_end.
Qed.

Lemma nothing_laid_past_the_end_witness :
  let tasks :=
    [ {| task_title := Some "A"; task_priority := Some 1;
         task_estimated_minutes := Val (-30) |};
      {| task_title := Some "B"; task_priority := Some 2;
         task_estimated_minutes := Val 45 |} ] in
  let req := {| start_time := Some "09:00"; end_time := Some "10:00";
                break_every_minutes := 10; break_minutes := 0 |} in
  ∃ resp, generate_schedule 739925 tasks [] req = Some resp
          ∧ Forall (λ b, start b ≤ 600 ∧ end_ b ≤ 600)
              (task_break_blocks (blocks resp)).
Proof.
  intros tasks req. eexists. split; [reflexivity|].
  apply (nothing_laid_past_the_end 739925 tasks [] req 600); reflexivity.
Defined.

(** The loop reads of the request the two break settings only. *)
Lemma while_loop_break_settings today req req' e tasks st :
  break_every_minutes req = break_every_minutes req' →
  break_minutes req = break_minutes req' →
  while_loop today req e tasks st = while_loop today req' e tasks st.
Proof.
  intros Hevery Hbreak. revert st.
  induction tasks as [|t tasks IH]; intros st; simpl; [done|].
  unfold loop_body, take_break. rewrite Hevery, Hbreak.
  destruct (cursor st <? e); [|done].
  destruct (plus_minutes today (cursor st) (est_of t)) as [block_end|];
    simpl; [|done].
  destruct (e <? block_end); simpl; [done|].
  destruct (break_every_minutes req' <=? minutes_since_break st + est_of t);
    simpl; [|apply IH].
  destruct (plus_minutes today block_end (break_minutes req')) as [b_end|];
    simpl; [|done].
  destruct (b_end <=? e); simpl; apply IH.
Qed.

(** X25. [GET /api/schedule] is the schedule of a request that leaves out
    both times. For tasks that take between one minute and a day it
    always answers, unless today is the last day of the calendar, and its
    task and break blocks lie between 09:00 and 18:00, each lasting. *)
Theorem default_schedule_within_working_day today tasks routines :
  valid_date today → today < MAXORDINAL →
  Forall (λ t, 0 < est_of t ≤ 1440) tasks →
  get_schedule_default today tasks routines
  = generate_schedule today tasks routines
      {| start_time := None; end_time := None;
         break_every_minutes := 90; break_minutes := 10 |}
  ∧ ∃ resp,
      get_schedule_default today tasks routines = Some resp
      ∧ Forall (λ b, 9 * 60 ≤ start b ∧ start b < end_ b ∧ end_ b ≤ 18 * 60)
          (task_break_blocks (blocks resp)).
Proof.
  intros Htoday Hlast Hest. split.
  { unfold get_schedule_default, generate_schedule. simpl.
    destruct (routine_blocks today routines) as [rb|]; simpl; [|done].
    by rewrite (while_loop_break_settings today default_request
      {| start_time := None; end_time := None;
         break_every_minutes := 90; break_minutes := 10 |}). }
  assert (Forall (λ t, 0 < est_of t ≤ 1440) (tasks_sorted tasks)) as Hest'.
  { unfold tasks_sorted. by rewrite PyFacts.sorted_Permutation. }
  assert (Forall (λ t, 0 ≤ est_of t ≤ 1440) (tasks_sorted tasks)) as Hest''.
  { eapply Forall_impl; [exact Hest'|]. simpl. lia. }
  assert (1080 < 1440) as Hend' by lia.
  assert (0 ≤ break_minutes default_request ≤ 1440) as Hbreak
    by (simpl; lia).
  assert (0 ≤ cursor (initial_state 540)) as Hstart by (simpl; lia).
  destruct (while_loop_Some today default_request 1080 (tasks_sorted tasks)
              (initial_state 540) Htoday Hlast Hend' Hbreak Hest'' Hstart)
    as [st Hloop].
  exists {| date_ := today;
            blocks := sorted Z.ltb start
                        (blocks_so_far st ++ (reminder <$> routines)) |}.
  split.
  - apply generate_schedule_Some.
    exists 540, 1080, (reminder <$> routines), st.
    split; [reflexivity|]. split; [reflexivity|].
    split; [by apply routine_blocks_reminders|]. by split.
  - simpl.
    assert (Forall (λ t, 0 < est_of t) (tasks_sorted tasks)) as Hpos.
    { eapply Forall_impl; [exact Hest'|]. simpl. lia. }
    rewrite (task_break_blocks_of_response _ default_request _ _ _ _ _
               ltac:(simpl; lia) Hpos Hloop).
    pose proof (while_loop_chain _ _ _ _ _ _ Hloop) as Hchain.
    pose proof (while_loop_lasting _ default_request _ _ _ _
                  ltac:(simpl; lia) Hpos Hloop) as Hlast'.
    pose proof (while_loop_before_end _ _ _ _ _ _ Hloop) as Hend.
    destruct (chain_between _ _ _ Hchain Hlast') as [_ Hall].
    rewrite list.Forall_forall in Hall, Hlast', Hend.
    apply list.Forall_forall. intros b Hb.
    specialize (Hall b Hb). specialize (Hlast' b Hb). specialize (Hend b Hb).
    unfold lasting in Hlast'. lia.
Qed.

Lemma default_schedule_within_working_day_witness :
  let tasks :=
    [ {| task_title := Some "A"; task_priority := Some 1;
         task_estimated_minutes := Val 300 |};
      {| task_title := Some "B"; task_priority := Some 2;
         task_estimated_minutes := Val 200 |} ] in
  ∃ resp,
    get_schedule_default 739925 tasks [] = Some resp
    ∧ Forall (λ b, 9 * 60 ≤ start b ∧ start b < end_ b ∧ end_ b ≤ 18 * 60)
        (task_break_blocks (blocks resp)).
Proof.
  intros tasks.
  refine (proj2 (default_schedule_within_working_day 739925 tasks [] _ _ _));
    [by vm_compute|by vm_compute|].
  repeat constructor; by vm_compute.
Defined.

End ScheduleSpec.

(** ** Generic endpoints, schema listing and diagnostics *)

Module ApiSpec.
Import Py Api.

(** X19. Registering the endpoints never meets a model without a
    collection. The collections the nine endpoint pairs work on are, in
    the order of registration, exactly the names that [GET /schema] lists,
    each once; every collection is named after its model class in lower
    case; and no two endpoint pairs share a path. *)
Theorem registered_collections_are_the_schema :
  ∃ eps,
    register_endpoints = Some eps
    ∧ collection <$> eps = get_schema
    ∧ NoDup get_schema
    ∧ NoDup (path <$> eps)
    ∧ (∀ m, getitem MODEL_TO_COLLECTION m = Some (lower (class_name m)))
    ∧ (∀ m, m ∈ registrations.*1).
Proof.
  eexists. split; [reflexivity|]. split; [reflexivity|].
  split; [apply (bool_decide_unpack _); by vm_compute|].
  split; [apply (bool_decide_unpack _); by vm_compute|].
  split; intros []; try reflexivity; apply (bool_decide_unpack _); by vm_compute.
Qed.

Section list_items.
Context {value : Type} (str : value → string) (string_value : string → value).

Lemma with_id_no_native_id (d : gmap string value) :
  with_id str string_value d !! "_id" = None.
Proof.
  unfold with_id. destruct (d !! "_id") as [oid|] eqn:Hid; [|done].
  rewrite lookup_insert_ne by done. apply lookup_delete_eq.
Qed.

Lemma with_id_other (d : gmap string value) k :
  k ≠ "id" → k ≠ "_id" → with_id str string_value d !! k = d !! k.
Proof.
  intros Hid Hnative. unfold with_id.
  destruct (d !! "_id") as [oid|]; [|done].
  rewrite lookup_insert_ne by done. by rewrite lookup_delete_ne.
Qed.

(** X20. Listing keeps the number and the order of the fetched documents.
    No listed document has an [_id] field; one that was fetched with an
    [_id] has the string of that identifier under [id], in place of any
    [id] it had; one fetched without stays as it was; every other field
    is left alone. *)
Theorem list_items_renames_id docs out :
  list_items str string_value (Some docs) = Some out →
  length out = length docs
  ∧ ∀ i (d : gmap string value), docs !! i = Some d →
      ∃ d', out !! i = Some d'
        ∧ d' !! "_id" = None
        ∧ (∀ oid, d !! "_id" = Some oid →
             d' !! "id" = Some (string_value (str oid)))
        ∧ (d !! "_id" = None → d' = d)
        ∧ (∀ k, k ≠ "id" → k ≠ "_id" → d' !! k = d !! k).
Proof.
  intros [= <-]. split; [by rewrite length_fmap|].
  intros i d Hd. exists (with_id str string_value d).
  split; [by rewrite list_lookup_fmap, Hd|].
  split; [apply with_id_no_native_id|].
  split; [|split].
  - intros oid Hoid. unfold with_id. rewrite Hoid. apply lookup_insert_eq.
  - intros Hnone. unfold with_id. by rewrite Hnone.
  - intros k. apply with_id_other.
Qed.

(** X21. Listing what has been listed changes nothing more; and when the
    fetch fails, so does the listing. *)
Theorem list_items_idempotent fetched :
  list_items str string_value (list_items str string_value fetched)
  = list_items str string_value fetched
  ∧ (list_items str string_value fetched = None ↔ fetched = None).
Proof.
  split.
  - destruct fetched as [docs|]; simpl; [|done]. f_equal.
    rewrite <- list_fmap_compose. apply list_fmap_ext. intros i d _. simpl.
    unfold with_id at 1. by rewrite with_id_no_native_id.
  - by destruct fetched.
Qed.
End list_items.

Lemma list_items_renames_id_witness :
  let doc : gmap string string :=
    {[ "_id" := "65f1c0ffee0123456789abcd"; "id" := "old"; "title" := "A" ]} in
  ∃ d', list_items id id (Some [doc]) = Some [d']
        ∧ d' !! "_id" = None
        ∧ d' !! "id" = Some "65f1c0ffee0123456789abcd"
        ∧ d' !! "title" = Some "A".
Proof.
  intros doc.
  destruct (list_items_renames_id id id [doc] _ eq_refl) as [_ Hdocs].
  destruct (Hdocs 0%nat doc eq_refl) as (d' & Hout & Hnative & Hid & _ & Hother).
  exists d'. simpl in Hout. injection Hout as <-.
  split; [reflexivity|]. split; [exact Hnative|].
  split; [by apply Hid|]. by rewrite Hother.
Defined.



(** X22. In the diagnostic report the backend is always reported running
    and the status fields agree with one another: the connection status
    is "Connected" exactly when there is a database handle; without a
    handle nothing of the initial report changes, whatever the
    environment; and collections are listed only in a report whose
    database status is "Connected & Working". *)
Theorem test_database_consistent db url :
  backend (test_database db url) = "✅ Running"
  ∧ (connection_status (test_database db url) = "Connected" ↔ db ≠ None)
  ∧ (db = None →
     test_database db url =
       {| backend := "✅ Running"; database := "❌ Not Available";
          database_url := "❌ Not Set"; database_name := "❌ Not Set";
          connection_status := "Not Connected"; collections := [] |})
  ∧ (collections (test_database db url) ≠ [] →
     database (test_database db url) = "✅ Connected & Working"
     ∧ connection_status (test_database db url) = "Connected").
Proof.
  destruct db as [[name [e|names]]|]; simpl; repeat split; try done.
  all: try (by intros [= <-]).
Qed.


End ApiSpec.
